(** * Endpoint monitor: a shallow embedding of [main.py] and [monitor.py]

    The repository holds two scripts with the same polling loop.
    [main.py] keys the per-domain counters by the text between ["//"] and
    the next ["/"]; [monitor.py] adds a schema check, a log sink and keys
    the counters by the registrable domain that [tldextract] returns.

    Python values are an inductive type, an exception is a value of
    [PyExc], and a computation that may raise returns [Res].  Everything
    the scripts get from outside (file system, YAML parser, HTTP
    transport, sleep, the public-suffix lookup) is a field of [Env]; the
    loop threads a [World] that counts the requests made and collects what
    the process wrote. *)

From Stdlib Require Import ZArith Lia Bool.
From Stdlib Require Import Strings.String Strings.Ascii.
From Stdlib Require Import Floats.SpecFloat.
From stdpp Require Import base option list strings gmap pretty.

#[local] Set Warnings "-register-all".
#[local] Open Scope string_scope.
#[local] Open Scope list_scope.
#[local] Open Scope Z_scope.

(** ** Python values, exceptions, results *)

Module Py.

(** The values [yaml.safe_load] hands to the scripts, restricted to the
    JSON-like fragment with string keys that an endpoint list uses. *)
Inductive PyVal : Type :=
  | PyNone
  | PyBool (b : bool)
  | PyInt (n : Z)
  | PyFloat (f : spec_float)
  | PyStr (s : string)
  | PyList (l : list PyVal)
  | PyDict (d : gmap string PyVal).

(** Subclasses of [requests.RequestException]. *)
Inductive RequestsError : Type :=
  | HTTPError
  | ConnectionError      (* refused connection, DNS resolution failure *)
  | ProxyError
  | SSLError
  | Timeout
  | ConnectTimeout
  | ReadTimeout
  | URLRequired
  | TooManyRedirects
  | MissingSchema
  | InvalidSchema
  | InvalidURL
  | InvalidHeader
  | InvalidJSONError
  | ChunkedEncodingError
  | ContentDecodingError
  | RetryError.

Inductive PyExc : Type :=
  | KeyError (key : string)
  | TypeError
  | AttributeError
  | ValueError
  | ZeroDivisionError
  | OverflowError
  | OSError
  | YAMLError
  | KeyboardInterrupt
  | SystemExit (code : Z)
  | RequestException (k : RequestsError).

(** [isinstance(e, requests.RequestException)], the test of the
    [except] clause in [check_health]. *)
Definition is_RequestException (e : PyExc) : bool :=
  match e with
  | RequestException _ => true
  | _ => false
  end.

Inductive Res (A : Type) : Type :=
  | Ok (a : A)
  | Raise (e : PyExc).
Arguments Ok {A} a.
Arguments Raise {A} e.

(** [v[k]] for a string key. *)
Definition py_getitem (v : PyVal) (k : string) : Res PyVal :=
  match v with
  | PyDict d =>
      match d !! k with
      | Some x => Ok x
      | None => Raise (KeyError k)
      end
  | _ => Raise TypeError
  end.

(** [v.get(k)]: only a dict has the method. *)
Definition py_get (v : PyVal) (k : string) : Res PyVal :=
  match v with
  | PyDict d => Ok (default PyNone (d !! k))
  | _ => Raise AttributeError
  end.

Definition is_none (v : PyVal) : bool :=
  match v with PyNone => true | _ => false end.

Fixpoint chars (s : string) : list PyVal :=
  match s with
  | EmptyString => []
  | String c r => PyStr (String c EmptyString) :: chars r
  end.

(** The items a [for] statement draws from [v]. *)
Definition py_iter (v : PyVal) : Res (list PyVal) :=
  match v with
  | PyList l => Ok l
  | PyDict d => Ok (PyStr <$> (map_to_list d).*1)
  | PyStr s => Ok (chars s)
  | _ => Raise TypeError
  end.

(** *** [str.split(sep)] for a non-empty separator

    The scan goes left to right; [skip] counts the characters of a
    separator just matched that are still to be passed over, [cur] holds
    the current piece in reverse. *)
Fixpoint rev_string (acc : list ascii) (s : string) : string :=
  match acc with
  | [] => s
  | c :: r => rev_string r (String c s)
  end.

(** [s.startswith(p)] *)
Fixpoint starts_with (p s : string) : bool :=
  match p with
  | EmptyString => true
  | String a p' =>
      match s with
      | EmptyString => false
      | String b s' => Ascii.eqb a b && starts_with p' s'
      end
  end.

Fixpoint split_go (sep : string) (skip : nat) (cur : list ascii)
    (s : string) : list string :=
  match s with
  | EmptyString => [rev_string cur EmptyString]
  | String c r =>
      match skip with
      | S k => split_go sep k cur r
      | O =>
          if starts_with sep s
          then rev_string cur EmptyString
                 :: split_go sep (Nat.pred (String.length sep)) [] r
          else split_go sep O (c :: cur) r
      end
  end.

Definition py_split (sep s : string) : list string := split_go sep O [] s.

(** ** Numbers: [int / int] and [round]

    [a / b] on ints is true division: the quotient rounded once to the
    nearest binary64 value, ties to even.  [SFdiv] on the two integers
    taken as mantissas with exponent 0 is that rounding. *)
Definition prec : Z := 53.
Definition emax : Z := 1024.

Definition py_truediv (a b : Z) : Res spec_float :=
  if b =? 0 then Raise ZeroDivisionError
  else if a =? 0 then Ok (S754_zero (b <? 0))
  else
    match SFdiv prec emax
            (S754_finite (a <? 0) (Z.to_pos (Z.abs a)) 0)
            (S754_finite (b <? 0) (Z.to_pos (Z.abs b)) 0) with
    | S754_infinity _ => Raise OverflowError
    | x => Ok x
    end.

(** Nearest integer to [m * 2^e], ties to even. *)
Definition round_half_even (m e : Z) : Z :=
  match e with
  | Zneg p =>
      let d := Z.pow 2 (Zpos p) in
      let q := m / d in
      let r := m mod d in
      match 2 * r ?= d with
      | Lt => q
      | Gt => q + 1
      | Eq => if Z.even q then q else q + 1
      end
  | _ => m * Z.pow 2 e
  end.

(** [round(x)] with one argument, on a float. *)
Definition py_round (x : spec_float) : Res Z :=
  match x with
  | S754_zero _ => Ok 0
  | S754_finite s m e =>
      let n := round_half_even (Zpos m) e in
      Ok (if s then - n else n)
  | S754_infinity _ => Raise OverflowError
  | S754_nan => Raise ValueError
  end.

End Py.
Export Py.


(** ** The outside world *)

Module Sys.

(** The arguments of [requests.request(method, url, headers=headers,
    json=body, timeout=.5)]. *)
Record Request : Type := mkRequest {
  req_method : PyVal;
  req_url : PyVal;
  req_headers : PyVal;
  req_json : PyVal;
  req_timeout_ms : Z }.

(** What the call does: a response with its [status_code], or an
    exception. *)
Inductive Outcome : Type :=
  | Responded (status : Z)
  | Failed (e : PyExc).

Inductive Level : Type := INFO | ERROR.

Inductive Event : Type :=
  | EvLog (lvl : Level) (msg : string)
  | EvRequest (r : Request)
  | EvPrint (line : string)
  | EvSleep (secs : Z).

Record Env : Type := mkEnv {
  (** [open(path).read()]; [None] is an [OSError] *)
  env_read : string -> option string;
  (** [yaml.safe_load]; [None] is a [yaml.YAMLError] *)
  env_yaml : string -> option PyVal;
  (** the transport's answer to the [k]-th request of the run *)
  env_http : nat -> Request -> Outcome;
  (** whether SIGINT arrives during the [k]-th sleep *)
  env_sleep : nat -> bool;
  (** the public suffix list [tldextract] consults, each suffix as its
      labels: [["co"; "uk"]] for [co.uk] *)
  env_psl : list (list string);
  (** the text of the [SchemaError] raised for a config *)
  env_schema_text : PyVal -> string }.

Record World : Type := mkWorld {
  requests_made : nat;
  sleeps_done : nat;
  trace : list Event }.

Definition world0 : World := mkWorld 0 0 [].

Definition M (A : Type) : Type := World -> Res A * World.

Definition ret {A} (a : A) : M A := fun w => (Ok a, w).

Definition bind {A B} (c : M A) (k : A -> M B) : M B :=
  fun w =>
    match c w with
    | (Ok a, w') => k a w'
    | (Raise e, w') => (Raise e, w')
    end.

Definition lift {A} (r : Res A) : M A := fun w => (r, w).

(** [try: c  except <class>: h] *)
Definition try_except {A} (c : M A) (caught : PyExc -> bool) (h : M A)
    : M A :=
  fun w =>
    match c w with
    | (Raise e, w') => if caught e then h w' else (Raise e, w')
    | r => r
    end.

Definition emit (ev : Event) : M unit :=
  fun w => (Ok tt, mkWorld (requests_made w) (sleeps_done w) (trace w ++ [ev])).

Definition print (line : string) : M unit := emit (EvPrint line).
Definition log (lvl : Level) (msg : string) : M unit := emit (EvLog lvl msg).

Definition requests_request (env : Env) (r : Request) : M Z :=
  fun w =>
    let w' := mkWorld (S (requests_made w)) (sleeps_done w)
                (trace w ++ [EvRequest r]) in
    match env_http env (requests_made w) r with
    | Responded status => (Ok status, w')
    | Failed e => (Raise e, w')
    end.

Definition time_sleep (env : Env) (secs : Z) : M unit :=
  fun w =>
    let w' := mkWorld (requests_made w) (S (sleeps_done w))
                (trace w ++ [EvSleep secs]) in
    if env_sleep env (sleeps_done w) then (Raise KeyboardInterrupt, w')
    else (Ok tt, w').

End Sys.
Export Sys.

Declare Scope py_scope.
Delimit Scope py_scope with py.
Notation "'do' x <- c ; k" := (bind c (fun x => k))
  (at level 10, x name, c at level 100, k at level 200) : py_scope.
Notation "'exec' c ; k" := (bind c (fun _ => k))
  (at level 10, c at level 100, k at level 200) : py_scope.
#[local] Open Scope py_scope.

(** ** [check_health], the same text in both scripts *)

Definition check_health (env : Env) (endpoint : PyVal) : M string :=
  do url <- lift (py_getitem endpoint "url") ;
  do m <- lift (py_get endpoint "method") ;
  let method := if is_none m then PyStr "GET" else m in
  do headers <- lift (py_get endpoint "headers") ;
  do body <- lift (py_get endpoint "body") ;
  try_except
    (do status_code <-
       requests_request env (mkRequest method url headers body 500) ;
     if (200 <=? status_code) && (status_code <? 300)
     then ret "UP"
     else ret "DOWN")
    is_RequestException
    (ret "DOWN").

(** ** The per-domain counters

    [defaultdict(lambda: {"up": 0, "total": 0})]: a dict keeps its keys in
    the order of first insertion, and the report walks it in that order,
    so the table is a list of pairs with distinct keys. *)

Record Stats : Type := mkStats { up : Z; total : Z }.

Definition stats0 : Stats := mkStats 0 0.
Definition incr_total (s : Stats) : Stats := mkStats (up s) (total s + 1).
Definition incr_up (s : Stats) : Stats := mkStats (up s + 1) (total s).

Definition DomainStats : Type := list (string * Stats).

Fixpoint ds_lookup (d : string) (ds : DomainStats) : option Stats :=
  match ds with
  | [] => None
  | (k, s) :: r => if String.eqb k d then Some s else ds_lookup d r
  end.

(** [domain_stats[d][field] += 1]: the subscript creates the entry when
    the key is new, then the field of that entry is updated in place. *)
Fixpoint ds_bump (f : Stats -> Stats) (d : string) (ds : DomainStats)
    : DomainStats :=
  match ds with
  | [] => [(d, f stats0)]
  | (k, s) :: r =>
      if String.eqb k d then (k, f s) :: r else (k, s) :: ds_bump f d r
  end.

(** Lines 103-106 of [monitor.py], 51-53 of [main.py]. *)
Definition record (domain result : string) (ds : DomainStats) : DomainStats :=
  let ds := ds_bump incr_total domain ds in
  if String.eqb result "UP" then ds_bump incr_up domain ds else ds.

(** [round(100 * stats["up"] / stats["total"])] *)
Definition availability (s : Stats) : Res Z :=
  match py_truediv (100 * up s) (total s) with
  | Ok x => py_round x
  | Raise e => Raise e
  end.

Definition availability_line (domain : string) (a : Z) : string :=
  domain +:+ " has " +:+ pretty a +:+ "% availability percentage".

(** The reporting loop: each percentage is computed, then printed, before
    the next entry is looked at. *)
Fixpoint report (ds : DomainStats) : M unit :=
  match ds with
  | [] => ret tt
  | (domain, stats) :: r =>
      do a <- lift (availability stats) ;
      exec print (availability_line domain a) ;
      report r
  end.

(** The percentages the report prints, as one value. *)
Fixpoint snapshot (ds : DomainStats) : Res (list (string * Z)) :=
  match ds with
  | [] => Ok []
  | (domain, stats) :: r =>
      match availability stats with
      | Ok a =>
          match snapshot r with
          | Ok l => Ok ((domain, a) :: l)
          | Raise e => Raise e
          end
      | Raise e => Raise e
      end
  end.

(** How a run stands after a number of cycles. *)
Inductive Run : Type :=
  | Running (ds : DomainStats)   (* the loop is about to start a cycle *)
  | Exited (code : Z)
  | Crashed (e : PyExc).         (* uncaught: traceback, status 1 *)

(** ** The polling loop

    Lines 46-61 of [main.py] and 97-117 of [monitor.py] are the same text
    but for the expression that turns [endpoint["url"]] into the domain
    key; [domain_of] stands for it. *)

Section Loop.

Variable env : Env.
Variable domain_of : PyVal -> Res string.

Definition probe (ds : DomainStats) (endpoint : PyVal) : M DomainStats :=
  do url <- lift (py_getitem endpoint "url") ;
  do domain <- lift (domain_of url) ;
  do result <- check_health env endpoint ;
  ret (record domain result ds).

Fixpoint sweep (endpoints : list PyVal) (ds : DomainStats) : M DomainStats :=
  match endpoints with
  | [] => ret ds
  | endpoint :: r => do ds' <- probe ds endpoint ; sweep r ds'
  end.

Definition cycle (config : PyVal) (ds : DomainStats) : M DomainStats :=
  do endpoints <- lift (py_iter config) ;
  do ds' <- sweep endpoints ds ;
  exec report ds' ;
  exec print "---" ;
  exec time_sleep env 15 ;
  ret ds'.

(** [while True], cut after [n] cycles. *)
Fixpoint loop (n : nat) (config : PyVal) (ds : DomainStats) : M DomainStats :=
  match n with
  | O => ret ds
  | S k => do ds' <- cycle config ds ; loop k config ds'
  end.

End Loop.

Definition usage_message : string :=
  "Usage: python monitor.py <config_file_path>".

Definition stopped_message : string :=
  String "010"%char "Monitoring stopped by user.".

(** ** [main.py] *)

Module Main.

Definition load_config (env : Env) (file_path : string) : M PyVal :=
  match env_read env file_path with
  | None => lift (Raise OSError)
  | Some text =>
      match env_yaml env text with
      | None => lift (Raise YAMLError)
      | Some v => ret v
      end
  end.

(** [url.split("//")[-1].split("/")[0]] *)
Definition domain_of_url (url : string) : string :=
  hd "" (py_split "/" (List.last (py_split "//" url) "")).

Definition domain_key (url : PyVal) : Res string :=
  match url with
  | PyStr u => Ok (domain_of_url u)
  | _ => Raise AttributeError
  end.

Definition monitor_endpoints (env : Env) (n : nat) (file_path : string)
    : M DomainStats :=
  do config <- load_config env file_path ;
  loop env domain_key n config [].

Definition main (env : Env) (n : nat) (argv : list string) : Run * World :=
  match argv with
  | [_; config_file] =>
      match monitor_endpoints env n config_file world0 with
      | (Ok ds, w) => (Running ds, w)
      | (Raise KeyboardInterrupt, w) =>
          (Exited 0, snd (print stopped_message w))
      | (Raise e, w) => (Crashed e, w)
      end
  | _ => (Exited 1, snd (print usage_message world0))
  end.

End Main.

(** ** The domain extractor's library call

    [monitor.py] imports [tldextract]; the package is not part of the
    sources. *)

Module Tld.

Definition is_colon (c : ascii) : bool := Ascii.eqb c ":".
Definition is_dot (c : ascii) : bool := Ascii.eqb c ".".
Definition ends_netloc (c : ascii) : bool :=
  Ascii.eqb c "/" || Ascii.eqb c "?" || Ascii.eqb c "#".

Fixpoint drop_chars (n : nat) (s : string) : string :=
  match n, s with
  | S k, String _ r => drop_chars k r
  | _, _ => s
  end.

(** The text after the first ["://"], when there is one. *)
Fixpoint after_scheme (u : string) : option string :=
  match u with
  | EmptyString => None
  | String c r =>
      if starts_with "://" u then Some (drop_chars 2 r) else after_scheme r
  end.

Fixpoint take_until (stop : ascii -> bool) (s : string) : string :=
  match s with
  | EmptyString => EmptyString
  | String c r => if stop c then EmptyString else String c (take_until stop r)
  end.

(** The host name of a URL: no scheme, no path, query or fragment, no
    port.  This reads a URL the way section 4.4 lists its parts,
    [scheme://host:port/path?query#fragment]; user info, upper-case
    letters and a trailing dot are not among them, and the statements
    that compare the extractor with [main.py] keep to URLs without
    them. *)
Definition host (u : string) : string :=
  take_until is_colon (take_until ends_netloc (default u (after_scheme u))).

(** The labels of a host name, [str.split(".")]. *)
Fixpoint labels (s : string) : list string :=
  match s with
  | EmptyString => [EmptyString]
  | String c r =>
      if is_dot c then EmptyString :: labels r
      else
        match labels r with
        | l :: ls => String c l :: ls
        | [] => [String c EmptyString]
        end
  end.

Fixpoint join_dot (ls : list string) : string :=
  match ls with
  | [] => EmptyString
  | [l] => l
  | l :: r => l +:+ "." +:+ join_dot r
  end.

Section PublicSuffix.

Variable psl : list (list string).

Definition in_psl (ls : list string) : bool := bool_decide (ls ∈ psl).

(** Walks the tails of the label list from the longest; the first tail
    found in the list is the public suffix, [prev] the label before it. *)
Fixpoint suffix_scan (prev : option string) (ls : list string)
    : option (option string * list string) :=
  match ls with
  | [] => None
  | l :: r => if in_psl ls then Some (prev, ls) else suffix_scan (Some l) r
  end.

(** Modelled from the spec: [tldextract.extract(url).registered_domain],
    a third-party call whose code is not in the sources.  Section 4.4:
    the registrable domain, public-suffix-aware, "ignoring scheme,
    subdomain labels, port, path, query, and fragment"; the glossary: "the
    minimal domain name that can be registered", that is the public
    suffix and the one label before it.  The empty string stands for a
    host that has no such domain. *)
Definition registered_domain (u : string) : string :=
  match suffix_scan None (labels (host u)) with
  | Some (Some d, suffix) =>
      if String.eqb d EmptyString then EmptyString else join_dot (d :: suffix)
  | _ => EmptyString
  end.

End PublicSuffix.

(** A fragment of the public suffix list. *)
Definition sample_psl : list (list string) :=
  [["com"]; ["org"]; ["net"]; ["io"]; ["uk"]; ["co"; "uk"]; ["org"; "uk"]].

End Tld.

(** ** [monitor.py] *)

Module Monitor.

(** The log file [logs/endpoint_monitor.log] is taken to be writable:
    [logging.basicConfig] runs when the module is loaded, before any of
    the functions below. *)

Definition load_config (env : Env) (file_path : string) : M PyVal :=
  exec log INFO "Load config file." ;
  match env_read env file_path with
  | None => lift (Raise OSError)
  | Some text =>
      match env_yaml env text with
      | None => lift (Raise YAMLError)
      | Some v => ret v
      end
  end.

Definition is_str (v : PyVal) : bool :=
  match v with PyStr _ => true | _ => false end.

Definition is_dict (v : PyVal) : bool :=
  match v with PyDict _ => true | _ => false end.

(** One key of a record against the dict schema: the key is one of the
    five the schema names and its value has the declared type. *)
Definition field_ok (k : string) (v : PyVal) : bool :=
  if String.eqb k "name" then is_str v
  else if String.eqb k "url" then is_str v
  else if String.eqb k "method" then is_str v
  else if String.eqb k "headers" then is_dict v
  else if String.eqb k "body" then is_str v
  else false.

(** [{"name": str, "url": str, Optional("method"): str,
      Optional("headers"): dict, Optional("body"): str}] *)
Definition record_ok (v : PyVal) : bool :=
  match v with
  | PyDict d =>
      bool_decide (is_Some (d !! "name"))
      && bool_decide (is_Some (d !! "url"))
      && forallb (fun kv => field_ok kv.1 kv.2) (map_to_list d)
  | _ => false
  end.

(** [Schema([{...}]).validate(config)] returns without a [SchemaError]. *)
Definition schema_ok (config : PyVal) : bool :=
  match config with
  | PyList l => forallb record_ok l
  | _ => false
  end.

Definition check_schema (env : Env) (config : PyVal) : M unit :=
  exec log INFO "Validating YAML schema." ;
  if schema_ok config then ret tt
  else log ERROR ("SchemaError:" +:+ env_schema_text env config).

(** [tldextract.extract(url).registered_domain]; a value without the
    string methods makes the library raise. *)
Definition extract_domain (env : Env) (url : PyVal) : Res string :=
  match url with
  | PyStr u => Ok (Tld.registered_domain (env_psl env) u)
  | _ => Raise AttributeError
  end.

Definition monitor_endpoints (env : Env) (n : nat) (file_path : string)
    : M DomainStats :=
  do config <- load_config env file_path ;
  exec check_schema env config ;
  loop env (extract_domain env) n config [].

Definition main (env : Env) (n : nat) (argv : list string) : Run * World :=
  match argv with
  | [_; config_file] =>
      match (exec log INFO "Starting endpoint monitor." ;
             monitor_endpoints env n config_file) world0 with
      | (Ok ds, w) => (Running ds, w)
      | (Raise KeyboardInterrupt, w) =>
          (Exited 0,
           snd ((exec log ERROR "KeyboardInterrupt: Monitoring stopped by user." ;
                 print stopped_message) w))
      | (Raise e, w) => (Crashed e, w)
      end
  | _ =>
      (Exited 1,
       snd ((exec log ERROR usage_message ; print usage_message) world0))
  end.

End Monitor.

(** ** Vocabulary of the statements *)

(** The request [check_health] builds for a record [d] whose ["url"] is
    [url]: the method defaults to [GET], absent headers and body are
    [None], the timeout is half a second. *)
Definition request_for (d : gmap string PyVal) (url : PyVal) : Request :=
  mkRequest
    (let m := default PyNone (d !! "method") in
     if is_none m then PyStr "GET" else m)
    url
    (default PyNone (d !! "headers"))
    (default PyNone (d !! "body"))
    500.

(** The world after one more request. *)
Definition sent (r : Request) (w : World) : World :=
  mkWorld (S (requests_made w)) (sleeps_done w) (trace w ++ [EvRequest r]).

(** The table after a history of probes, each a domain key with its
    result, oldest first. *)
Definition replay (hist : list (string * string)) (ds : DomainStats)
    : DomainStats :=
  fold_left (fun acc p => record p.1 p.2 acc) hist ds.

(** N: the probes of a history that belong to domain [d]. *)
Definition probes_of (d : string) (hist : list (string * string)) : Z :=
  Z.of_nat (length (filter (fun p => p.1 = d) hist)).

(** U: those of them that were UP. *)
Definition ups_of (d : string) (hist : list (string * string)) : Z :=
  Z.of_nat (length (filter (fun p => p.1 = d /\ p.2 = "UP") hist)).

(** The counters of [d], zero for a domain not seen yet. *)
Definition counts (d : string) (ds : DomainStats) : Stats :=
  default stats0 (ds_lookup d ds).

Definition keys (ds : DomainStats) : list string := ds.*1.

(** What one probe with the given result does to a counter pair. *)
Definition step (result : string) (s : Stats) : Stats :=
  if String.eqb result "UP" then incr_up (incr_total s) else incr_total s.

(** Counters that probes can have produced. *)
Definition sound (s : Stats) : Prop := 0 <= up s <= total s /\ 1 <= total s.

(** An entry of the table and the entry of the snapshot made from it. *)
Definition reports (kv : string * Stats) (ka : string * Z) : Prop :=
  ka.1 = kv.1 /\ availability kv.2 = Ok ka.2.

(** The lines a snapshot is printed as. *)
Definition printed (l : list (string * Z)) : list Event :=
  (fun ka => EvPrint (availability_line ka.1 ka.2)) <$> l.

(** The endpoint has a ["url"] and the probe [p] carries its domain key. *)
Definition keyed (domain_of : PyVal -> Res string) (endpoint : PyVal)
    (p : string * string) : Prop :=
  exists url, py_getitem endpoint "url" = Ok url /\ domain_of url = Ok p.1.

Fixpoint string_forall (f : ascii -> bool) (s : string) : bool :=
  match s with
  | EmptyString => true
  | String c r => f c && string_forall f r
  end.

Definition is_slash (c : ascii) : bool := Ascii.eqb c "/".

(** Characters that can stand in a host name: none of [: / ? #]. *)
Definition host_char (c : ascii) : bool :=
  negb (Tld.is_colon c || Tld.ends_netloc c).

(** Characters of one label: a host character other than the dot. *)
Definition label_char (c : ascii) : bool :=
  negb (Tld.is_dot c) && host_char c.

(** Characters of a scheme: neither [:] nor [/]. *)
Definition scheme_char (c : ascii) : bool := negb (Tld.is_colon c || is_slash c).

(** ["//" in s] *)
Fixpoint has_dslash (s : string) : bool :=
  match s with
  | EmptyString => false
  | String c r => starts_with "//" s || has_dslash r
  end.

(** [lo <= c <= hi] in ASCII. *)
Definition ascii_between (lo hi c : ascii) : bool :=
  (N_of_ascii lo <=? N_of_ascii c)%N && (N_of_ascii c <=? N_of_ascii hi)%N.

(** Characters of a URL scheme: letters, digits, [+], [-] and [.]. *)
Definition scheme_ident_char (c : ascii) : bool :=
  ascii_between "a" "z" c || ascii_between "A" "Z" c
  || ascii_between "0" "9" c
  || Ascii.eqb c "+" || Ascii.eqb c "-" || Ascii.eqb c ".".

(** Characters of a host label as written in lower case: letters, digits
    and the hyphen. *)
Definition ldh_char (c : ascii) : bool :=
  ascii_between "a" "z" c || ascii_between "0" "9" c || Ascii.eqb c "-".

(** A plain label: not empty, of such characters only, and not in the
    [xn--] encoding of a label with other characters. *)
Definition plain_label (l : string) : bool :=
  negb (String.eqb l "") && string_forall ldh_char l
  && negb (starts_with "xn--" l).

(** *** Sample inputs *)

Definition endpoint (name url : string) : PyVal :=
  PyDict (<["name" := PyStr name]> (<["url" := PyStr url]> ∅)).

Definition always (o : Outcome) : nat -> Request -> Outcome := fun _ _ => o.

(** Every path reads as a file that parses to [config]; no SIGINT. *)
Definition sample_env (config : PyVal) (http : nat -> Request -> Outcome)
    : Env :=
  mkEnv (fun _ => Some "") (fun _ => Some config) http (fun _ => false)
    Tld.sample_psl (fun _ => "Missing key").

(** No file can be read. *)
Definition no_file_env : Env :=
  mkEnv (fun _ => None) (fun _ => None) (always (Responded 200))
    (fun _ => false) Tld.sample_psl (fun _ => "").

Definition host_a : PyVal := endpoint "a" "https://a.example.com/health".
Definition host_b : PyVal := endpoint "b" "https://b.example.com:8443/".
Definition two_hosts : PyVal := PyList [host_a; host_b].

(** The first request of the run gets a 503, the later ones a 200. *)
Definition first_down (k : nat) (r : Request) : Outcome :=
  match k with O => Responded 503 | _ => Responded 200 end.

Definition two_hosts_env : Env := sample_env two_hosts first_down.

(** One cycle of [monitor.py] over [two_hosts], then the sweep of the
    second cycle. *)
Definition monitor_cycle1 : Res DomainStats * World :=
  loop two_hosts_env (Monitor.extract_domain two_hosts_env) 1 two_hosts []
    world0.

Definition monitor_sweep2 : Res DomainStats * World :=
  sweep two_hosts_env (Monitor.extract_domain two_hosts_env)
    [host_a; host_b] [("example.com", mkStats 1 2)] monitor_cycle1.2.

(** The first sweep of [main.py] over the same config. *)
Definition main_sweep1 : Res DomainStats * World :=
  sweep two_hosts_env Main.domain_key [host_a; host_b] [] world0.

(** *** Vocabulary of the further properties *)

(** Nearest integer to [a / b], ties to even, in integer arithmetic. *)
Definition round_ratio (a b : Z) : Z :=
  let q := a / b in
  let r := a mod b in
  match 2 * r ?= b with
  | Lt => q
  | Gt => q + 1
  | Eq => if Z.even q then q else q + 1
  end.

(** What [check_health] makes of the transport's answer when it returns. *)
Definition verdict (o : Outcome) : string :=
  match o with
  | Responded s => if (200 <=? s) && (s <? 300) then "UP" else "DOWN"
  | Failed _ => "DOWN"
  end.

(** The transport fails only with exceptions of the [requests] library. *)
Definition benign (env : Env) : Prop :=
  forall k r e, env_http env k r = Failed e -> is_RequestException e = true.

(** A record the loop can probe: a mapping whose ["url"] is a string. *)
Definition probeable (endpoint : PyVal) : Prop :=
  exists d u, endpoint = PyDict d /\ d !! "url" = Some (PyStr u).

(** The key expression accepts every string. *)
Definition keys_strings (domain_of : PyVal -> Res string) : Prop :=
  forall u, exists domain, domain_of (PyStr u) = Ok domain.

(** The request a probe of the record sends. *)
Definition endpoint_request (endpoint : PyVal) : option Request :=
  match endpoint with
  | PyDict d => request_for d <$> d !! "url"
  | _ => None
  end.

Definition is_log (ev : Event) : bool :=
  match ev with EvLog _ _ => true | _ => false end.

(** What the schema asks of one record: ["name"] and ["url"] are there
    and are strings, ["method"] and ["body"] are strings and ["headers"]
    is a mapping when they are there, and there is no other key. *)
Definition conforming (d : gmap string PyVal) : Prop :=
  (exists name, d !! "name" = Some (PyStr name))
  /\ (exists url, d !! "url" = Some (PyStr url))
  /\ (forall v, d !! "method" = Some v -> exists s, v = PyStr s)
  /\ (forall v, d !! "headers" = Some v -> exists h, v = PyDict h)
  /\ (forall v, d !! "body" = Some v -> exists s, v = PyStr s)
  /\ (forall k, is_Some (d !! k) ->
                k ∈ ["name"; "url"; "method"; "headers"; "body"]).

(** The log of [monitor.py] when the loop is about to start. *)
Definition startup_log (env : Env) (config : PyVal) : list Event :=
  [EvLog INFO "Starting endpoint monitor.";
   EvLog INFO "Load config file.";
   EvLog INFO "Validating YAML schema."]
  ++ (if Monitor.schema_ok config then []
      else [EvLog ERROR ("SchemaError:" +:+ env_schema_text env config)]).

(** How [__main__] ends a run of the loop. *)
Definition monitor_exit (r : Res DomainStats * World) : Run * World :=
  match r with
  | (Ok ds, w) => (Running ds, w)
  | (Raise KeyboardInterrupt, w) =>
      (Exited 0,
       mkWorld (requests_made w) (sleeps_done w)
         (trace w ++ [EvLog ERROR "KeyboardInterrupt: Monitoring stopped by user.";
                      EvPrint stopped_message]))
  | (Raise e, w) => (Crashed e, w)
  end.

Definition main_exit (r : Res DomainStats * World) : Run * World :=
  match r with
  | (Ok ds, w) => (Running ds, w)
  | (Raise KeyboardInterrupt, w) =>
      (Exited 0,
       mkWorld (requests_made w) (sleeps_done w)
         (trace w ++ [EvPrint stopped_message]))
  | (Raise e, w) => (Crashed e, w)
  end.

(** SIGINT arrives during the second sleep. *)
Definition second_sleep_env : Env :=
  mkEnv (fun _ => Some "") (fun _ => Some two_hosts) first_down
    (fun k => Nat.eqb k 1) Tld.sample_psl (fun _ => "").

(** A record with a URL but no name, which the schema rejects. *)
Definition nameless : PyVal :=
  PyDict (<["url" := PyStr "https://example.org/"]> ∅).

(** The transport answers the requests numbered [from], ..., [from + n - 1]
    of the run with a response or an exception of the [requests] library. *)
Definition benign_on (env : Env) (from n : nat) : Prop :=
  forall k r e, (from <= k < from + n)%nat ->
    env_http env k r = Failed e -> is_RequestException e = true.



(** The domain key the loop files an endpoint under, when it has one. *)
Definition endpoint_key (domain_of : PyVal -> Res string) (endpoint : PyVal)
    : option string :=
  match py_getitem endpoint "url" with
  | Ok url => match domain_of url with Ok k => Some k | Raise _ => None end
  | Raise _ => None
  end.

(** How many endpoints of a list are filed under [d]. *)
Definition endpoints_of (domain_of : PyVal -> Res string) (d : string)
    (endpoints : list PyVal) : Z :=
  Z.of_nat (length (filter (fun ep => endpoint_key domain_of ep = Some d)
                      endpoints)).

(** The items of [l] that are not in [seen], without repetition, each at
    the place where it first occurs. *)
Fixpoint first_seen (seen l : list string) : list string :=
  match l with
  | [] => []
  | d :: r =>
      if bool_decide (d ∈ seen) then first_seen seen r
      else d :: first_seen (d :: seen) r
  end.

Definition no_slash (s : string) : bool :=
  string_forall (fun c => negb (is_slash c)) s.

(** The one record has no name; every request gets a 200. *)
Definition nameless_env : Env :=
  sample_env (PyList [nameless]) (always (Responded 200)).

(** * Facts *)

(** ** Binary64 division and rounding *)

Section FloatFacts.

Lemma digits2_pos_size p : digits2_pos p = Pos.size p.
Proof. induction p; simpl; congruence. Qed.

Lemma Zdigits2_lt_pow (m k : Z) : 0 <= m -> 0 <= k -> m < 2 ^ k -> Zdigits2 m <= k.
Proof.
  intros Hm Hk Hlt. destruct m as [|p|p]; simpl; [lia| |lia].
  rewrite digits2_pos_size.
  pose proof (Pos.size_le p) as Hle.
  destruct (Z.le_gt_cases (Z.pos (Pos.size p)) k) as [|Hgt]; [done|exfalso].
  assert (2 ^ k <= Z.pos p); [|lia].
  assert (Hpow : 2 ^ Z.pos (Pos.size p) <= 2 * Z.pos p).
  { change (2 * Z.pos p) with (Z.pos p~0). rewrite <- Pos2Z.inj_pow. lia. }
  assert (2 ^ (k + 1) <= 2 ^ Z.pos (Pos.size p)) by (apply Z.pow_le_mono_r; lia).
  rewrite Z.pow_add_r in * by lia. lia.
Qed.

Lemma shr_1_m r : 0 <= shr_m r -> 0 <= shr_m (shr_1 r) /\ 2 * shr_m (shr_1 r) <= shr_m r.
Proof.
  destruct r as [m b s]; simpl. intros Hm.
  destruct m as [|[p|p|]|]; simpl; lia.
Qed.

Lemma iter_pos_shr_1 p r :
  0 <= shr_m r ->
  0 <= shr_m (SpecFloat.iter_pos shr_1 p r) /\ 2 ^ Z.pos p * shr_m (SpecFloat.iter_pos shr_1 p r) <= shr_m r.
Proof.
  revert r. induction p as [p IH|p IH|]; intros r Hr; simpl.
  - destruct (shr_1_m r Hr) as [H0 H1].
    destruct (IH _ H0) as [H2 H3]. destruct (IH _ H2) as [H4 H5].
    split; [done|].
    replace (Z.pos p~1) with (Z.pos p + Z.pos p + 1) by lia.
    rewrite !Z.pow_add_r by lia. change (2 ^ 1) with 2.
    assert (0 < 2 ^ Z.pos p) by (apply Z.pow_pos_nonneg; lia).
    set (X := 2 ^ Z.pos p) in *.
    set (a := shr_m (SpecFloat.iter_pos shr_1 p (shr_1 r))) in *.
    set (b := shr_m (SpecFloat.iter_pos shr_1 p (SpecFloat.iter_pos shr_1 p (shr_1 r)))) in *.
    assert (X * (X * b) <= X * a) by (apply Z.mul_le_mono_nonneg_l; lia).
    lia.
  - destruct (IH _ Hr) as [H2 H3]. destruct (IH _ H2) as [H4 H5].
    split; [done|].
    replace (Z.pos p~0) with (Z.pos p + Z.pos p) by lia.
    rewrite !Z.pow_add_r by lia.
    assert (0 < 2 ^ Z.pos p) by (apply Z.pow_pos_nonneg; lia).
    set (X := 2 ^ Z.pos p) in *.
    set (a := shr_m (SpecFloat.iter_pos shr_1 p r)) in *.
    set (b := shr_m (SpecFloat.iter_pos shr_1 p (SpecFloat.iter_pos shr_1 p r))) in *.
    assert (X * (X * b) <= X * a) by (apply Z.mul_le_mono_nonneg_l; lia).
    lia.
  - destruct (shr_1_m r Hr). change (2 ^ 1) with 2. lia.
Qed.

Lemma shr_bounds r e n :
  0 <= shr_m r ->
  0 <= shr_m (shr r e n).1
  /\ (shr r e n).2 = e + Z.max n 0
  /\ 2 ^ Z.max n 0 * shr_m (shr r e n).1 <= shr_m r.
Proof.
  intros Hr. destruct n as [|p|p]; unfold shr; cbn [fst snd].
  - change (Z.max 0 0) with 0. rewrite Z.pow_0_r. lia.
  - destruct (iter_pos_shr_1 p r Hr). rewrite Z.max_l by lia. lia.
  - rewrite Z.max_r by lia. rewrite Z.pow_0_r. lia.
Qed.

Lemma shr_record_of_loc_m m l : shr_m (shr_record_of_loc m l) = m.
Proof. destruct l as [|[]]; reflexivity. Qed.

Lemma round_nearest_even_bounds m l :
  m <= round_nearest_even m l <= m + 1.
Proof. destruct l as [|[]]; simpl; try lia. destruct (Z.even m); lia. Qed.

Lemma fexp_binary64 x : fexp prec emax x = Z.max (x - 53) (-1074).
Proof. reflexivity. Qed.

Lemma pow2_pos n : 0 <= n -> 0 < 2 ^ n.
Proof. intros. apply Z.pow_pos_nonneg; lia. Qed.

Lemma round_aux_le mx ex lx :
  ex <= -46 -> 0 <= mx <= 100 * 2 ^ (- ex) ->
  match binary_round_aux prec emax false mx ex lx with
  | S754_zero _ => True
  | S754_finite s m e => s = false /\ e < 0 /\ 2 * Z.pos m <= 201 * 2 ^ (- e)
  | _ => False
  end.
Proof.
  intros Hex [Hmx0 Hmx].
  set (s := - ex) in *. assert (Hs : 46 <= s) by lia.
  assert (Hmx7 : mx < 2 ^ (s + 7)).
  { rewrite Z.pow_add_r by lia. change (2 ^ 7) with 128.
    pose proof (pow2_pos s). lia. }
  pose proof (Zdigits2_lt_pow mx (s + 7) Hmx0 ltac:(lia) Hmx7) as D1.
  unfold binary_round_aux, shr_fexp.
  set (n1 := fexp prec emax (Zdigits2 mx + ex) - ex).
  assert (N1 : n1 <= s - 46). { unfold n1. rewrite fexp_binary64. lia. }
  pose proof (shr_bounds (shr_record_of_loc mx lx) ex n1) as B1.
  rewrite shr_record_of_loc_m in B1. specialize (B1 Hmx0).
  destruct (shr (shr_record_of_loc mx lx) ex n1) as [r1 e1].
  cbn [fst snd] in B1. destruct B1 as (Hq1 & He1 & Hq1le).
  set (n1' := Z.max n1 0) in *.
  assert (Hn1 : 0 <= n1' <= s - 46) by lia.
  pose proof (round_nearest_even_bounds (shr_m r1) (loc_of_shr_record r1)) as Hm2.
  set (m2 := round_nearest_even (shr_m r1) (loc_of_shr_record r1)) in *.
  set (q1 := shr_m r1) in *.
  pose proof (pow2_pos n1' ltac:(lia)) as HA.
  assert (Hq1lt : q1 < 2 ^ (s + 7 - n1')).
  { assert (E : 2 ^ (s + 7) = 2 ^ n1' * 2 ^ (s + 7 - n1')).
    { rewrite <- Z.pow_add_r by lia. f_equal. lia. }
    rewrite E in Hmx7. 
    apply (Z.mul_lt_mono_pos_l (2 ^ n1')); lia. }
  assert (Hm2lt : m2 < 2 ^ (s + 8 - n1')).
  { replace (s + 8 - n1') with (s + 7 - n1' + 1) by lia.
    rewrite Z.pow_add_r by lia. change (2 ^ 1) with 2.
    pose proof (pow2_pos (s + 7 - n1') ltac:(lia)). lia. }
  pose proof (Zdigits2_lt_pow m2 (s + 8 - n1') ltac:(lia) ltac:(lia) Hm2lt) as D2.
  set (n2 := fexp prec emax (Zdigits2 m2 + e1) - e1).
  assert (N2 : n2 <= s - n1' - 45). { unfold n2. rewrite fexp_binary64. lia. }
  pose proof (shr_bounds (shr_record_of_loc m2 loc_Exact) e1 n2) as B2.
  rewrite shr_record_of_loc_m in B2. specialize (B2 ltac:(lia)).
  destruct (shr (shr_record_of_loc m2 loc_Exact) e1 n2) as [r2 e2].
  cbn [fst snd] in B2. destruct B2 as (Hm3 & He2 & Hm3le).
  set (n2' := Z.max n2 0) in *.
  assert (Hn2 : 0 <= n2' /\ n1' + n2' <= s - 45) by lia.
  destruct (shr_m r2) as [|m3|m3] eqn:Em3; [done| |lia].
  assert (He2neg : e2 < 0) by lia.
  replace (e2 <=? emax - prec) with true
    by (symmetry; apply Z.leb_le; unfold emax, prec; lia).
  split; [done|]. split; [done|].
  set (t := - e2). assert (Ht : 45 <= t /\ s = t + n1' + n2') by lia.
  destruct Ht as [Ht Est].
  pose proof (pow2_pos n2' ltac:(lia)) as HB.
  pose proof (pow2_pos t ltac:(lia)) as HT.
  assert (HT2 : 2 <= 2 ^ t).
  { change 2 with (2 ^ 1) at 1. apply Z.pow_le_mono_r; lia. }
  assert (Es : 2 ^ s = 2 ^ t * 2 ^ n1' * 2 ^ n2').
  { rewrite Est, !Z.pow_add_r by lia. done. }
  rewrite Es in Hmx.
  set (A := 2 ^ n1') in *. set (B := 2 ^ n2') in *. set (T := 2 ^ t) in *.
  set (M := Z.pos m3) in *.
  assert (H1 : A * (B * M) <= A * (q1 + 1)).
  { apply Z.mul_le_mono_nonneg_l; lia. }
  assert (H2 : A * (B * M) <= A * (100 * T * B + 1)) by lia.
  assert (H3 : B * M <= 100 * T * B + 1).
  { apply (Z.mul_le_mono_pos_l _ _ A); lia. }
  destruct (Z.le_gt_cases (2 * M) (201 * T)) as [|Hgt]; [done|exfalso].
  assert (H4 : B * (201 * T + 1) <= B * (2 * M)).
  { apply Z.mul_le_mono_nonneg_l; lia. }
  assert (H5 : 1 * 2 <= B * T) by (apply Z.mul_le_mono_nonneg; lia).
  lia.
Qed.

Lemma round_half_even_bounds m e :
  e < 0 -> 0 <= m -> 2 * m <= 201 * 2 ^ (- e) ->
  0 <= round_half_even m e <= 100.
Proof.
  intros He Hm Hle. destruct e as [|p|p]; [lia|lia|].
  unfold round_half_even. change (- Z.neg p) with (Z.pos p) in Hle.
  set (d := 2 ^ Z.pos p) in *.
  assert (Hd : 0 < d) by (apply pow2_pos; lia).
  pose proof (Z.div_mod m d ltac:(lia)) as Hdm.
  pose proof (Z.mod_pos_bound m d Hd) as Hr.
  set (q := m / d) in *. set (r := m mod d) in *.
  assert (Hq0 : 0 <= q) by nia.
  assert (Hq : q <= 99 \/ (q = 100 /\ 2 * r <= d)) by nia.
  destruct (Z.compare_spec (2 * r) d) as [Heq|Hlt|Hgt].
  - destruct Hq as [Hq|[-> _]]; [destruct (Z.even q); lia|]. simpl. lia.
  - lia.
  - lia.
Qed.

Lemma py_truediv_bounds a b :
  0 < a -> 0 < b -> a <= 100 * b ->
  match py_truediv a b with
  | Ok (S754_zero _) => True
  | Ok (S754_finite s m e) => s = false /\ e < 0 /\ 2 * Z.pos m <= 201 * 2 ^ (- e)
  | _ => False
  end.
Proof.
  intros Ha Hb Hab. unfold py_truediv.
  destruct (Z.eqb_spec b 0) as [|_]; [lia|].
  destruct (Z.eqb_spec a 0) as [|_]; [lia|].
  destruct (Z.ltb_spec a 0) as [|_]; [lia|].
  destruct (Z.ltb_spec b 0) as [|_]; [lia|].
  rewrite !Z.abs_eq by lia.
  destruct a as [|pa|pa]; [lia| |lia]. destruct b as [|pb|pb]; [lia| |lia].
  cbn [Z.to_pos SFdiv xorb].
  unfold SFdiv_core_binary.
  set (d1 := Zdigits2 (Z.pos pa)). set (d2 := Zdigits2 (Z.pos pb)).
  assert (Hd : d1 - d2 <= 7).
  { assert (Hd2 : 0 <= d2) by (unfold d2; simpl; lia).
    assert (Hlt : Z.pos pa < 2 ^ (d2 + 7)).
    { rewrite Z.pow_add_r by lia. change (2 ^ 7) with 128.
      assert (Z.pos pb < 2 ^ d2); [|lia].
      unfold d2. simpl. rewrite digits2_pos_size.
      pose proof (Pos.size_gt pb). rewrite <- Pos2Z.inj_pow. lia. }
    pose proof (Zdigits2_lt_pow (Z.pos pa) (d2 + 7) ltac:(lia) ltac:(lia) Hlt).
    unfold d1. lia. }
  rewrite !Z.add_0_r. change (0 - 0) with 0.
  set (e' := Z.min (fexp prec emax (d1 - d2)) 0).
  assert (He' : e' <= -46). { unfold e'. rewrite fexp_binary64. lia. }
  destruct (0 - e') as [|ps|ps] eqn:Es; [lia| |lia].
  rewrite Z.shiftl_mul_pow2 by lia. rewrite <- Es.
  replace (0 - e') with (- e') by lia.
  pose proof (Z_div_mod (Z.pos pa * 2 ^ (- e')) (Z.pos pb) ltac:(lia)) as Hdm.
  destruct (Z.div_eucl (Z.pos pa * 2 ^ (- e')) (Z.pos pb)) as [q r].
  destruct Hdm as [Hdm Hr].
  pose proof (pow2_pos (- e') ltac:(lia)) as HP.
  assert (Hq : 0 <= q <= 100 * 2 ^ (- e')).
  { set (P := 2 ^ (- e')) in *. split; [nia|].
    assert (Z.pos pb * q <= Z.pos pb * (100 * P)) by nia.
    apply (Z.mul_le_mono_pos_l _ _ (Z.pos pb)); lia. }
  pose proof (round_aux_le q e' (new_location (Z.pos pb) r) He' Hq) as Hround.
  destruct (binary_round_aux prec emax false q e' (new_location (Z.pos pb) r));
    done.
Qed.

Lemma availability_bounds u t :
  0 <= u <= t -> 1 <= t ->
  exists a, availability (mkStats u t) = Ok a /\ 0 <= a <= 100.
Proof.
  intros Hu Ht. unfold availability. cbn [up total].
  destruct (Z.eq_dec u 0) as [->|Hne].
  - exists 0. unfold py_truediv. simpl.
    destruct (Z.eqb_spec t 0); [lia|]. simpl. split; [done|lia].
  - pose proof (py_truediv_bounds (100 * u) t ltac:(lia) ltac:(lia) ltac:(lia)) as H.
    destruct (py_truediv (100 * u) t) as [[sz|si| |[] m e]|]; try done.
    + exists 0. split; [reflexivity|lia].
    + destruct H as [? _]; done.
    + destruct H as (_ & He & Hm). cbn [py_round].
      eexists; split; [reflexivity|].
      apply round_half_even_bounds; lia.
Qed.

End FloatFacts.

(** ** The counters *)

Section Aggregator.

Lemma record_bump d r ds : record d r ds = ds_bump (step r) d ds.
Proof.
  unfold record, step. destruct (String.eqb r "UP"); [|done].
  induction ds as [|[k s] ds IH]; simpl.
  - rewrite String.eqb_refl. done.
  - destruct (String.eqb k d) eqn:E; simpl; rewrite E; [done|]. by rewrite IH.
Qed.

Lemma ds_lookup_bump_eq f d ds :
  ds_lookup d (ds_bump f d ds) = Some (f (counts d ds)).
Proof.
  unfold counts. induction ds as [|[k s] ds IH]; simpl.
  - by rewrite String.eqb_refl.
  - destruct (String.eqb k d) eqn:E; simpl; rewrite E; done.
Qed.

Lemma ds_lookup_bump_ne f d k ds :
  k <> d -> ds_lookup k (ds_bump f d ds) = ds_lookup k ds.
Proof.
  intros Hne. induction ds as [|[k' s] ds IH]; simpl.
  - destruct (String.eqb_spec d k); [congruence|done].
  - destruct (String.eqb_spec k' d) as [->|]; simpl.
    + destruct (String.eqb_spec d k); [congruence|done].
    + destruct (String.eqb k' k); done.
Qed.

Lemma keys_bump f d ds :
  keys (ds_bump f d ds) = if bool_decide (d ∈ keys ds) then keys ds else (keys ds ++ [d])%list.
Proof.
  unfold keys. induction ds as [|[k s] ds IH]; cbn [ds_bump].
  - case_bool_decide as H; [by apply elem_of_nil in H|done].
  - destruct (String.eqb_spec k d) as [->|Hne]; rewrite !fmap_cons; cbn [fst].
    + rewrite bool_decide_eq_true_2; [done|]. left.
    + rewrite IH. destruct (bool_decide_reflect (d ∈ ds.*1)) as [Hin|Hnin].
      * rewrite bool_decide_eq_true_2; [done|]. by right.
      * rewrite bool_decide_eq_false_2; [done|].
        intros Hin. apply elem_of_cons in Hin as [->|]; done.
Qed.

Lemma NoDup_keys_bump f d ds : NoDup (keys ds) -> NoDup (keys (ds_bump f d ds)).
Proof.
  intros Hnd. rewrite keys_bump.
  destruct (bool_decide_reflect (d ∈ keys ds)) as [|Hnin]; [done|].
  apply NoDup_app. split; [done|]. split; [|apply NoDup_singleton].
  intros x Hx Hx'. apply list_elem_of_singleton in Hx' as ->. done.
Qed.

Lemma Forall_bump (P : Stats -> Prop) f d ds :
  (forall s, P s -> P (f s)) -> P (f stats0) ->
  Forall (fun kv => P kv.2) ds -> Forall (fun kv => P kv.2) (ds_bump f d ds).
Proof.
  intros Hf H0. induction 1 as [|[k s] ds Hs Hds IH]; simpl.
  - by constructor.
  - destruct (String.eqb k d); constructor; simpl in *; auto.
Qed.

Lemma step_sound r s : 0 <= up s <= total s -> sound (step r s).
Proof.
  unfold sound, step, incr_up, incr_total.
  destruct (String.eqb r "UP"); simpl; lia.
Qed.

Lemma sound_record d r ds :
  Forall (fun kv => sound kv.2) ds -> Forall (fun kv => sound kv.2) (record d r ds).
Proof.
  rewrite record_bump. apply Forall_bump.
  - intros s [H _]. by apply step_sound.
  - apply step_sound. simpl. lia.
Qed.

Lemma sound_replay hist ds :
  Forall (fun kv => sound kv.2) ds -> Forall (fun kv => sound kv.2) (replay hist ds).
Proof.
  revert ds. induction hist as [|p hist IH]; intros ds H; simpl; [done|].
  apply IH. by apply sound_record.
Qed.

Lemma NoDup_keys_replay hist ds : NoDup (keys ds) -> NoDup (keys (replay hist ds)).
Proof.
  revert ds. induction hist as [|p hist IH]; intros ds H; simpl; [done|].
  apply IH. rewrite record_bump. by apply NoDup_keys_bump.
Qed.

Lemma counts_record_eq d r ds : counts d (record d r ds) = step r (counts d ds).
Proof. unfold counts at 1. by rewrite record_bump, ds_lookup_bump_eq. Qed.

Lemma counts_record_ne d k r ds : k <> d -> counts k (record d r ds) = counts k ds.
Proof. intros. unfold counts. by rewrite record_bump, ds_lookup_bump_ne. Qed.

Lemma probes_of_cons d p hist :
  probes_of d (p :: hist) = (if decide (p.1 = d) then 1 else 0) + probes_of d hist.
Proof.
  unfold probes_of. rewrite filter_cons.
  destruct (decide (p.1 = d)); simpl length; lia.
Qed.

Lemma ups_of_cons d p hist :
  ups_of d (p :: hist)
  = (if decide (p.1 = d /\ p.2 = "UP") then 1 else 0) + ups_of d hist.
Proof.
  unfold ups_of. rewrite filter_cons.
  destruct (decide (p.1 = d /\ p.2 = "UP")); simpl length; lia.
Qed.

Lemma counts_replay d hist ds :
  counts d (replay hist ds)
  = mkStats (up (counts d ds) + ups_of d hist)
            (total (counts d ds) + probes_of d hist).
Proof.
  revert ds. induction hist as [|[k r] hist IH]; intros ds; simpl.
  - unfold ups_of, probes_of. simpl. rewrite !Z.add_0_r. by destruct (counts d ds).
  - rewrite IH, probes_of_cons, ups_of_cons. simpl.
    destruct (decide (k = d)) as [->|Hne].
    + rewrite counts_record_eq. unfold step.
      destruct (String.eqb_spec r "UP") as [->|Hr].
      * rewrite decide_True by done. simpl. f_equal; lia.
      * rewrite decide_False by (intros [_ ?]; done). simpl. f_equal; lia.
    + rewrite counts_record_ne by done.
      rewrite decide_False by (intros [? _]; done). f_equal; lia.
Qed.

Lemma lookup_replay_is_Some d hist ds :
  1 <= probes_of d hist -> is_Some (ds_lookup d (replay hist ds)).
Proof.
  revert ds. induction hist as [|[k r] hist IH]; intros ds.
  - unfold probes_of. simpl. lia.
  - rewrite probes_of_cons. simpl. intros H.
    destruct (decide (k = d)) as [->|Hne].
    + clear. assert (Hs : is_Some (ds_lookup d (record d r ds))).
      { rewrite record_bump, ds_lookup_bump_eq. eauto. }
      revert Hs. generalize (record d r ds). clear.
      induction hist as [|[k r] hist IH]; intros ds Hs; simpl; [done|].
      apply IH. rewrite record_bump.
      destruct (decide (d = k)) as [->|Hne].
      * rewrite ds_lookup_bump_eq. eauto.
      * by rewrite ds_lookup_bump_ne.
    + apply IH. lia.
Qed.

Lemma lookup_replay d hist :
  1 <= probes_of d hist ->
  ds_lookup d (replay hist []) = Some (mkStats (ups_of d hist) (probes_of d hist)).
Proof.
  intros H. pose proof (counts_replay d hist []) as Hc.
  destruct (lookup_replay_is_Some d hist [] H) as [s Hs].
  unfold counts in Hc. rewrite Hs in Hc. simpl in Hc. rewrite Hs, Hc. done.
Qed.

(** *** The report *)

Lemma snapshot_sound ds :
  Forall (fun kv => sound kv.2) ds ->
  exists l, snapshot ds = Ok l
    /\ Forall2 (fun kv ka => ka.1 = kv.1 /\ availability kv.2 = Ok ka.2) ds l
    /\ Forall (fun ka => 0 <= ka.2 <= 100) l.
Proof.
  induction 1 as [|[k [u t]] ds [Hu Ht] Hds (l & Hl & Hall & Hb)]; simpl.
  - exists []. by repeat split.
  - simpl in Hu, Ht. destruct (availability_bounds u t Hu Ht) as (a & Ha & Hab).
    rewrite Ha, Hl. exists ((k, a) :: l). split; [done|].
    split; constructor; done.
Qed.

Lemma report_snapshot ds l w :
  snapshot ds = Ok l ->
  report ds w
  = (Ok tt, mkWorld (requests_made w) (sleeps_done w) (trace w ++ printed l)).
Proof.
  revert l w. induction ds as [|[k s] ds IH]; intros l w; simpl.
  - intros [= <-]. unfold ret, printed. simpl. rewrite app_nil_r. by destruct w.
  - destruct (availability s) as [a|e] eqn:Ea; [|done].
    destruct (snapshot ds) as [l'|e] eqn:El; [|done]. intros [= <-].
    unfold bind, lift. simpl. rewrite (IH l') by done. simpl.
    rewrite <- app_assoc. done.
Qed.

End Aggregator.

(** ** Running the monad *)

Lemma bind_Ok {A B} (c : M A) (k : A -> M B) w b w' :
  bind c k w = (Ok b, w') ->
  exists a w1, c w = (Ok a, w1) /\ k a w1 = (Ok b, w').
Proof.
  unfold bind. destruct (c w) as [[a|e] w1]; [eauto|done].
Qed.

Lemma bind_Raise {A B} (c : M A) (k : A -> M B) w e w' :
  bind c k w = (Raise e, w') ->
  c w = (Raise e, w') \/ exists a w1, c w = (Ok a, w1) /\ k a w1 = (Raise e, w').
Proof.
  unfold bind. destruct (c w) as [[a|e'] w1]; [eauto|]. intros [= -> ->]. by left.
Qed.

Lemma lift_Ok {A} (r : Res A) w a w' : lift r w = (Ok a, w') -> r = Ok a /\ w' = w.
Proof. unfold lift. by intros [= -> ->]. Qed.

Ltac inv_bind H :=
  let a := fresh "a" in let w1 := fresh "w" in
  let H1 := fresh H in
  apply bind_Ok in H as (a & w1 & H1 & H).

(** ** [check_health] *)

Lemma check_health_dict env d url w :
  d !! "url" = Some url ->
  check_health env (PyDict d) w
  = match env_http env (requests_made w) (request_for d url) with
    | Responded s =>
        (Ok (if (200 <=? s) && (s <? 300) then "UP" else "DOWN"),
         sent (request_for d url) w)
    | Failed e =>
        (if is_RequestException e then Ok "DOWN" else Raise e,
         sent (request_for d url) w)
    end.
Proof.
  intros Hurl.
  unfold check_health, bind, lift, try_except, requests_request, py_getitem, py_get.
  rewrite Hurl. fold (request_for d url). fold (sent (request_for d url) w).
  destruct (env_http env (requests_made w) (request_for d url)) as [s|e].
  - by destruct ((200 <=? s) && (s <? 300)).
  - by destruct (is_RequestException e).
Qed.

Lemma check_health_result env endpoint w r w' :
  check_health env endpoint w = (Ok r, w') -> r = "UP" \/ r = "DOWN".
Proof.
  destruct endpoint as [| | | | | |d]; try done.
  destruct (d !! "url") as [url|] eqn:Hurl.
  - rewrite (check_health_dict _ _ _ _ Hurl).
    destruct (env_http _ _ _) as [s|e].
    + destruct ((200 <=? s) && (s <? 300)); intros [= <- _]; auto.
    + destruct (is_RequestException e); intros [= <- _]; auto.
  - unfold check_health, bind, lift, py_getitem. by rewrite Hurl.
Qed.

Lemma check_health_raise env endpoint w e w' :
  check_health env endpoint w = (Raise e, w') ->
  e = TypeError \/ e = KeyError "url"
  \/ exists k r, env_http env k r = Failed e.
Proof.
  destruct endpoint as [| | | | | |d]; try (intros [= <- _]; by left).
  destruct (d !! "url") as [url|] eqn:Hurl.
  - rewrite (check_health_dict _ _ _ _ Hurl).
    destruct (env_http _ _ _) as [s|e0] eqn:Eh; [done|].
    destruct (is_RequestException e0); [done|]. intros [= <- _]. eauto.
  - unfold check_health, bind, lift, py_getitem. rewrite Hurl.
    intros [= <- _]. auto.
Qed.

(** ** The loop *)

Section LoopFacts.

Variable env : Env.
Variable domain_of : PyVal -> Res string.

Lemma probe_inv ds endpoint w ds' w' :
  probe env domain_of ds endpoint w = (Ok ds', w') ->
  exists url domain result,
    py_getitem endpoint "url" = Ok url /\ domain_of url = Ok domain
    /\ (result = "UP" \/ result = "DOWN")
    /\ ds' = record domain result ds.
Proof.
  unfold probe. intros H.
  inv_bind H. apply lift_Ok in H0 as [Hurl ->].
  inv_bind H. apply lift_Ok in H0 as [Hdom ->].
  inv_bind H. apply check_health_result in H0.
  unfold ret in H. injection H as <- _. eauto 10.
Qed.

Lemma sweep_inv endpoints ds w ds' w' :
  sweep env domain_of endpoints ds w = (Ok ds', w') ->
  exists hist, ds' = replay hist ds /\ Forall2 (keyed domain_of) endpoints hist.
Proof.
  revert ds w. induction endpoints as [|ep eps IH]; intros ds w; simpl.
  - intros [= <- _]. exists []. split; [done|constructor].
  - intros H. inv_bind H.
    apply probe_inv in H0 as (url & dom & res & Hurl & Hdom & _ & ->).
    apply IH in H as (hist & -> & Hall).
    exists ((dom, res) :: hist). split; [done|].
    constructor; [|done]. exists url. done.
Qed.

Lemma replay_app h1 h2 ds : replay (h1 ++ h2) ds = replay h2 (replay h1 ds).
Proof. unfold replay. apply fold_left_app. Qed.

Lemma cycle_inv config ds w ds' w' :
  cycle env domain_of config ds w = (Ok ds', w') ->
  exists endpoints w1,
    py_iter config = Ok endpoints
    /\ sweep env domain_of endpoints ds w = (Ok ds', w1).
Proof.
  unfold cycle. intros H.
  inv_bind H. apply lift_Ok in H0 as [Hit ->].
  inv_bind H. inv_bind H. inv_bind H. inv_bind H.
  unfold ret in H. injection H as <- _. eauto.
Qed.

Lemma loop_inv n config ds w ds' w' :
  loop env domain_of n config ds w = (Ok ds', w') ->
  exists hist, ds' = replay hist ds.
Proof.
  revert ds w. induction n as [|n IH]; intros ds w; simpl.
  - intros [= <- _]. by exists [].
  - intros H. inv_bind H.
    apply cycle_inv in H0 as (eps & w1 & _ & Hs).
    apply sweep_inv in Hs as (h1 & -> & _).
    apply IH in H as (h2 & ->). exists (h1 ++ h2). by rewrite replay_app.
Qed.

End LoopFacts.

(** ** Snapshots and histories *)

Lemma snapshot_keys ds l : Forall2 reports ds l -> l.*1 = keys ds.
Proof.
  unfold keys. induction 1 as [|[k s] [k' a] ds l [Hk _] _ IH]; [done|].
  rewrite !fmap_cons. simpl in Hk. cbn [fst]. by rewrite Hk, IH.
Qed.

Lemma snapshot_lookup ds l d s :
  Forall2 reports ds l -> ds_lookup d ds = Some s ->
  exists a, (d, a) ∈ l /\ availability s = Ok a.
Proof.
  induction 1 as [|[k s0] [k' a0] ds l [Hk Ha] _ IH]; [done|].
  simpl in *. subst k'. destruct (String.eqb_spec k d) as [->|Hne].
  - intros [= ->]. exists a0. split; [left|done].
  - intros Hl. destruct (IH Hl) as (a & Hin & Hav).
    exists a. split; [by right|done].
Qed.

Lemma assoc_unique {A} (l : list (string * A)) d a a' :
  NoDup l.*1 -> (d, a) ∈ l -> (d, a') ∈ l -> a' = a.
Proof.
  induction l as [|[k x] l IH]; [by intros _ ?%elem_of_nil|].
  rewrite fmap_cons, NoDup_cons. cbn [fst]. intros [Hnin Hnd] H1 H2.
  apply elem_of_cons in H1 as [[= -> ->]|H1];
    apply elem_of_cons in H2 as [[= ->]|H2]; [done| | |by apply IH].
  - exfalso. apply Hnin. apply list_elem_of_fmap. by exists (k, a').
  - subst. exfalso. apply Hnin. apply list_elem_of_fmap. by exists (k, a).
Qed.

Lemma sound_total (ds : DomainStats) :
  Forall (fun kv => sound kv.2) ds -> Forall (fun kv => 1 <= total kv.2) ds.
Proof. intros H. eapply Forall_impl; [done|]. by intros kv [_ ?]. Qed.

Lemma sound_up (ds : DomainStats) :
  Forall (fun kv => sound kv.2) ds ->
  Forall (fun kv => 0 <= up kv.2 <= total kv.2) ds.
Proof. intros H. eapply Forall_impl; [done|]. by intros kv [? _]. Qed.

Example three_of_four : availability (mkStats 3 4) = Ok 75.
Proof. vm_compute. reflexivity. Qed.

Example one_of_three : availability (mkStats 1 3) = Ok 33.
Proof. vm_compute. reflexivity. Qed.

Lemma availability_zero_total u :
  availability (mkStats u 0) = Raise ZeroDivisionError.
Proof. reflexivity. Qed.

Lemma probes_of_nonneg d hist : 0 <= probes_of d hist.
Proof. unfold probes_of. lia. Qed.

Lemma probes_one d (hist : list (string * string)) j q :
  hist !! j = Some q -> q.1 = d -> 1 <= probes_of d hist.
Proof.
  revert j. induction hist as [|p hist IH]; intros j; [done|].
  rewrite probes_of_cons. pose proof (probes_of_nonneg d hist).
  destruct j as [|j]; simpl.
  - intros [= ->] Hq. rewrite decide_True by done. lia.
  - intros Hj Hq. specialize (IH _ Hj Hq). destruct (decide (p.1 = d)); lia.
Qed.

Lemma probes_two d (hist : list (string * string)) i j p q :
  i <> j -> hist !! i = Some p -> hist !! j = Some q ->
  p.1 = d -> q.1 = d -> 2 <= probes_of d hist.
Proof.
  revert i j. induction hist as [|x hist IH]; intros i j Hij; [done|].
  rewrite probes_of_cons.
  destruct i as [|i], j as [|j]; simpl; [done| | |].
  - intros [= ->] Hj Hp Hq. rewrite decide_True by done.
    pose proof (probes_one d hist j q Hj Hq). lia.
  - intros Hi [= ->] Hp Hq. rewrite decide_True by done.
    pose proof (probes_one d hist i p Hi Hp). lia.
  - intros Hi Hj Hp Hq.
    assert (2 <= probes_of d hist) by (apply (IH i j); [lia|done..]).
    destruct (decide (x.1 = d)); lia.
Qed.

(** ** Counters across cycles *)

Lemma keyed_probes domain_of d endpoints hist :
  Forall2 (keyed domain_of) endpoints hist ->
  probes_of d hist = endpoints_of domain_of d endpoints.
Proof.
  induction 1 as [|ep p eps hist (url & Hu & Hd) _ IH].
  - done.
  - rewrite probes_of_cons, IH. unfold endpoints_of. rewrite filter_cons.
    assert (Hk : endpoint_key domain_of ep = Some p.1).
    { unfold endpoint_key. by rewrite Hu, Hd. }
    destruct (decide (p.1 = d)) as [<-|Hne].
    + rewrite decide_True by done. cbn [length]. lia.
    + rewrite decide_False by congruence. lia.
Qed.

Lemma ups_of_le_probes d hist : 0 <= ups_of d hist <= probes_of d hist.
Proof.
  unfold ups_of, probes_of. split; [lia|].
  apply inj_le. induction hist as [|p hist IH]; [done|].
  rewrite !filter_cons.
  destruct (decide (p.1 = d /\ p.2 = "UP")) as [[? ?]|?];
    destruct (decide (p.1 = d)); cbn [length]; try lia. tauto.
Qed.

(** [n + m] cycles are [n] cycles followed by [m] cycles from the table
    and the world the first [n] left. *)
Lemma loop_app env domain_of n m config ds w :
  loop env domain_of (n + m) config ds w
  = bind (loop env domain_of n config ds)
      (fun ds1 => loop env domain_of m config ds1) w.
Proof.
  revert ds w. induction n as [|n IH]; intros ds w; [done|].
  cbn [Nat.add loop]. unfold bind.
  destruct (cycle env domain_of config ds w) as [[ds1|e] w1]; [|done].
  rewrite IH. done.
Qed.

(** What [m] cycles add to the counters of a domain. *)
Lemma loop_counts env domain_of m config endpoints d ds0 w0 ds1 w1 :
  py_iter config = Ok endpoints ->
  loop env domain_of m config ds0 w0 = (Ok ds1, w1) ->
  total (counts d ds1)
  = total (counts d ds0) + Z.of_nat m * endpoints_of domain_of d endpoints
  /\ up (counts d ds0) <= up (counts d ds1)
     <= up (counts d ds0) + Z.of_nat m * endpoints_of domain_of d endpoints.
Proof.
  intros Hit. revert ds0 w0.
  induction m as [|m IH]; intros ds0 w0 H.
  - cbn [loop] in H. unfold ret in H. injection H as <- _. lia.
  - cbn [loop] in H. inv_bind H. apply IH in H as [Ht Hu].
    apply cycle_inv in H0 as (eps & wc & Hit' & Hs).
    rewrite Hit in Hit'. injection Hit' as <-.
    apply sweep_inv in Hs as (hist & -> & Hk).
    rewrite counts_replay in Ht, Hu. cbn [total up] in Ht, Hu.
    rewrite (keyed_probes _ d _ _ Hk) in Ht.
    pose proof (ups_of_le_probes d hist) as Hup.
    rewrite (keyed_probes _ d _ _ Hk) in Hup.
    rewrite Nat2Z.inj_succ, Z.mul_succ_l.
    set (E := endpoints_of domain_of d endpoints) in *.
    set (P := Z.of_nat m * E) in *. clearbody P E. lia.
Qed.

Lemma replay_keeps d hist ds :
  is_Some (ds_lookup d ds) -> is_Some (ds_lookup d (replay hist ds)).
Proof.
  revert ds. induction hist as [|[k r] hist IH]; intros ds H; [done|].
  change (replay ((k, r) :: hist) ds) with (replay hist (record k r ds)).
  apply IH. rewrite record_bump.
  destruct (decide (d = k)) as [->|Hne].
  - rewrite ds_lookup_bump_eq. eauto.
  - by rewrite ds_lookup_bump_ne.
Qed.

(** ** The registrable domain *)

Section TldFacts.

Import Tld.

Lemma string_forall_impl (f g : ascii -> bool) s :
  (forall c, f c = true -> g c = true) ->
  string_forall f s = true -> string_forall g s = true.
Proof.
  intros Hfg. induction s as [|c r IH]; simpl; [done|].
  rewrite !andb_true_iff. intros [? ?]. auto.
Qed.

Lemma string_forall_app f s t :
  string_forall f (s +:+ t) = string_forall f s && string_forall f t.
Proof. induction s as [|c r IH]; simpl; [done|]. by rewrite IH, andb_assoc. Qed.

Lemma take_until_keeps f stop s :
  string_forall f s = true -> string_forall f (take_until stop s) = true.
Proof.
  induction s as [|c r IH]; simpl; [done|].
  rewrite andb_true_iff. intros [Hc Hr].
  destruct (stop c); simpl; [done|]. by rewrite Hc, IH.
Qed.

Lemma take_until_stops stop s :
  string_forall (fun c => negb (stop c)) (take_until stop s) = true.
Proof.
  induction s as [|c r IH]; simpl; [done|].
  destruct (stop c) eqn:E; simpl; [done|]. by rewrite E, IH.
Qed.

Lemma take_until_id stop s :
  string_forall (fun c => negb (stop c)) s = true -> take_until stop s = s.
Proof.
  induction s as [|c r IH]; simpl; [done|].
  rewrite andb_true_iff. intros [Hc Hr].
  destruct (stop c); [done|]. by rewrite IH.
Qed.

Lemma take_until_app stop s c r :
  string_forall (fun c => negb (stop c)) s = true -> stop c = true ->
  take_until stop (s +:+ String c r) = s.
Proof.
  intros Hs Hc. induction s as [|c' r' IH]; simpl in *.
  - by rewrite Hc.
  - apply andb_true_iff in Hs as [Hc' Hr'].
    destruct (stop c'); [done|]. by rewrite IH.
Qed.

Lemma starts_with_scheme_colon c r :
  starts_with "://" (String c r) = true -> is_colon c = true.
Proof.
  cbn [starts_with]. rewrite andb_true_iff. intros [H _].
  unfold is_colon. by rewrite Ascii.eqb_sym.
Qed.

Lemma after_scheme_none s :
  string_forall (fun c => negb (is_colon c)) s = true -> after_scheme s = None.
Proof.
  induction s as [|c r IH]; [done|].
  cbn [string_forall after_scheme]. rewrite andb_true_iff. intros [Hc Hr].
  destruct (starts_with "://" (String c r)) eqn:E; [|auto].
  apply starts_with_scheme_colon in E. by rewrite E in Hc.
Qed.

Lemma after_scheme_app scheme rest :
  string_forall (fun c => negb (is_colon c)) scheme = true ->
  after_scheme (scheme +:+ "://" +:+ rest) = Some rest.
Proof.
  induction scheme as [|c r IH]; [intros _; reflexivity|].
  cbn [string_forall]. rewrite andb_true_iff. intros [Hc Hr].
  change (String c r +:+ "://" +:+ rest) with (String c (r +:+ "://" +:+ rest)).
  cbn [after_scheme].
  destruct (starts_with "://" (String c (r +:+ "://" +:+ rest))) eqn:E; [|auto].
  apply starts_with_scheme_colon in E. by rewrite E in Hc.
Qed.

Lemma host_char_split c :
  host_char c = true -> is_colon c = false /\ ends_netloc c = false.
Proof. unfold host_char. rewrite negb_true_iff, orb_false_iff. done. Qed.

Lemma host_of_host_chars s : string_forall host_char s = true -> host s = s.
Proof.
  intros H. unfold host.
  rewrite after_scheme_none; simpl.
  - rewrite (take_until_id ends_netloc), (take_until_id is_colon); [done|..];
      (eapply string_forall_impl; [|exact H]); intros c Hc;
      apply host_char_split in Hc as [H1 H2]; by rewrite ?H1, ?H2.
  - eapply string_forall_impl; [|exact H]. intros c Hc.
    apply host_char_split in Hc as [H1 _]. by rewrite H1.
Qed.

Lemma host_chars_of_host u : string_forall host_char (host u) = true.
Proof.
  unfold host.
  set (t := take_until ends_netloc (default u (after_scheme u))).
  assert (Ht : string_forall (fun c => negb (ends_netloc c)) t = true)
    by apply take_until_stops.
  pose proof (take_until_keeps _ is_colon t Ht) as H1.
  pose proof (take_until_stops is_colon t) as H2.
  revert H1 H2. generalize (take_until is_colon t). clear. intros s.
  induction s as [|c r IH]; simpl; [done|].
  rewrite !andb_true_iff. intros [Hc Hr] [Hc' Hr'].
  split; [|auto]. unfold host_char.
  apply negb_true_iff in Hc, Hc'. by rewrite Hc, Hc'.
Qed.

(** *** Labels *)

Lemma labels_nonempty s : labels s <> [].
Proof.
  induction s as [|c r IH]; simpl; [done|].
  destruct (is_dot c); [done|]. by destruct (labels r).
Qed.

Lemma labels_chars f s :
  string_forall f s = true ->
  Forall (fun l => string_forall (fun c => negb (is_dot c) && f c) l = true)
    (labels s).
Proof.
  induction s as [|c r IH]; simpl.
  - intros _. by repeat constructor.
  - rewrite andb_true_iff. intros [Hc Hr]. specialize (IH Hr).
    destruct (is_dot c) eqn:Ec.
    + by constructor.
    + destruct (labels r) as [|l ls]; [by repeat constructor; simpl; rewrite Ec, Hc|].
      inversion IH as [|? ? Hl Hls]; subst. constructor; [|done].
      simpl. by rewrite Ec, Hc, Hl.
Qed.

Lemma labels_label s l :
  string_forall (fun c => negb (is_dot c)) l = true ->
  labels (l +:+ String "." s) = l :: labels s.
Proof.
  induction l as [|c r IH]; simpl.
  - done.
  - rewrite andb_true_iff. intros [Hc Hr].
    apply negb_true_iff in Hc. rewrite Hc. by rewrite IH.
Qed.

Lemma labels_single l :
  string_forall (fun c => negb (is_dot c)) l = true -> labels l = [l].
Proof.
  induction l as [|c r IH]; simpl; [done|].
  rewrite andb_true_iff. intros [Hc Hr].
  apply negb_true_iff in Hc. rewrite Hc. by rewrite IH.
Qed.

Lemma labels_join ls :
  ls <> [] ->
  Forall (fun l => string_forall (fun c => negb (is_dot c)) l = true) ls ->
  labels (join_dot ls) = ls.
Proof.
  intros Hne Hall. induction Hall as [|l ls Hl Hls IH]; [done|].
  destruct ls as [|l' ls'].
  - simpl. by apply labels_single.
  - change (join_dot (l :: l' :: ls')) with (l +:+ String "." (join_dot (l' :: ls'))).
    rewrite labels_label by done. by rewrite IH.
Qed.

Lemma join_chars f ls :
  f "."%char = true ->
  Forall (fun l => string_forall f l = true) ls ->
  string_forall f (join_dot ls) = true.
Proof.
  intros Hdot. induction 1 as [|l ls Hl Hls IH]; [done|].
  destruct ls as [|l' ls']; [done|].
  change (join_dot (l :: l' :: ls')) with (l +:+ String "." (join_dot (l' :: ls'))).
  rewrite string_forall_app. cbn [string_forall]. by rewrite Hl, Hdot, IH.
Qed.

(** *** The suffix scan *)

Lemma suffix_scan_inv psl prev ls d suffix :
  suffix_scan psl prev ls = Some (Some d, suffix) ->
  in_psl psl suffix = true /\ suffix <> []
  /\ ((prev = Some d /\ suffix = ls)
      \/ (in_psl psl (d :: suffix) = false
          /\ exists pre, ls = pre ++ d :: suffix)).
Proof.
  revert prev. induction ls as [|l r IH]; intros prev; simpl; [done|].
  destruct (in_psl psl (l :: r)) eqn:E.
  - intros [= -> <-]. split; [done|]. split; [done|]. by left.
  - intros H. apply IH in H as (Hin & Hne & [[[= <-] ->]|(Hout & pre & ->)]).
    + split; [done|]. split; [done|]. right. split; [done|]. by exists [].
    + split; [done|]. split; [done|]. right. split; [done|]. by exists (l :: pre).
Qed.

Lemma suffix_scan_registrable psl d suffix :
  in_psl psl suffix = true -> suffix <> [] ->
  in_psl psl (d :: suffix) = false ->
  suffix_scan psl None (d :: suffix) = Some (Some d, suffix).
Proof.
  intros Hin Hne Hout. cbn [suffix_scan]. rewrite Hout.
  destruct suffix as [|l r]; [done|]. cbn [suffix_scan]. by rewrite Hin.
Qed.

Lemma registered_domain_empty psl : registered_domain psl "" = "".
Proof.
  unfold registered_domain. simpl. by destruct (in_psl psl [""]).
Qed.

Lemma registered_domain_idempotent psl u :
  registered_domain psl (registered_domain psl u) = registered_domain psl u.
Proof.
  unfold registered_domain at 2 3.
  destruct (suffix_scan psl None (labels (host u))) as [[[d|] suffix]|] eqn:E;
    try apply registered_domain_empty.
  destruct (String.eqb_spec d "") as [|Hd]; [apply registered_domain_empty|].
  apply suffix_scan_inv in E as (Hin & Hne & [[[=] _]|(Hout & pre & Hls)]).
  pose proof (labels_chars host_char (host u) (host_chars_of_host u)) as Hall.
  rewrite Hls in Hall. apply Forall_app in Hall as [_ Hall].
  assert (Hhost : string_forall host_char (join_dot (d :: suffix)) = true).
  { apply join_chars; [done|]. eapply Forall_impl; [exact Hall|].
    intros l. simpl. apply string_forall_impl. by intros c [_ ?]%andb_true_iff. }
  assert (Hdots : Forall (fun l => string_forall (fun c => negb (is_dot c)) l = true)
                    (d :: suffix)).
  { eapply Forall_impl; [exact Hall|].
    intros l. simpl. apply string_forall_impl. by intros c [? _]%andb_true_iff. }
  unfold registered_domain.
  rewrite host_of_host_chars by done.
  rewrite labels_join by done.
  rewrite suffix_scan_registrable by done.
  destruct (String.eqb_spec d ""); done.
Qed.

End TldFacts.

(** ** [str.split] on a URL *)

Section SplitFacts.

Import Tld.

Lemma rev_string_cons cur c s : rev_string (c :: cur) s = rev_string cur (String c s).
Proof. reflexivity. Qed.

Lemma split_go_nonempty sep k cur s : split_go sep k cur s <> [].
Proof.
  revert k cur. induction s as [|c r IH]; intros k cur; cbn [split_go]; [done|].
  destruct k; [|apply IH]. destruct (starts_with sep (String c r)); [done|apply IH].
Qed.

Lemma split_dslash_none cur s :
  has_dslash s = false -> split_go "//" 0 cur s = [rev_string cur s].
Proof.
  revert cur. induction s as [|c r IH]; intros cur; [done|].
  cbn [has_dslash split_go]. rewrite orb_false_iff. intros [-> Hr].
  by rewrite IH.
Qed.

Lemma starts_with_dslash c r :
  starts_with "//" (String c r) = true -> is_slash c = true.
Proof.
  cbn [starts_with]. rewrite andb_true_iff. intros [H _].
  unfold is_slash. by rewrite Ascii.eqb_sym.
Qed.

Lemma split_dslash_scheme cur scheme rest :
  string_forall scheme_char scheme = true ->
  List.last (split_go "//" 0 cur (scheme +:+ "://" +:+ rest)) ""
  = List.last (split_go "//" 0 [] rest) "".
Proof.
  revert cur. induction scheme as [|c r IH]; intros cur.
  - intros _.
    change ("" +:+ "://" +:+ rest) with (String ":" (String "/" (String "/" rest))).
    cbn [split_go starts_with Ascii.eqb Bool.eqb andb String.length Nat.pred].
    pose proof (split_go_nonempty "//" 0 [] rest) as Hne.
    by destruct (split_go "//" 0 [] rest).
  - cbn [string_forall]. rewrite andb_true_iff. intros [Hc Hr].
    change (String c r +:+ "://" +:+ rest) with (String c (r +:+ "://" +:+ rest)).
    cbn [split_go].
    destruct (starts_with "//" (String c (r +:+ "://" +:+ rest))) eqn:E.
    + apply starts_with_dslash in E. unfold scheme_char in Hc.
      rewrite E, orb_true_r in Hc. done.
    + by apply IH.
Qed.

Lemma split_slash_hd cur s :
  hd "" (split_go "/" 0 cur s) = rev_string cur (take_until is_slash s).
Proof.
  revert cur. induction s as [|c r IH]; intros cur; [done|].
  cbn [split_go starts_with take_until]. unfold is_slash.
  rewrite (Ascii.eqb_sym c "/"), andb_true_r.
  destruct (Ascii.eqb "/" c); [done|]. by rewrite IH.
Qed.

Lemma has_dslash_app h p :
  string_forall (fun c => negb (is_slash c)) h = true ->
  has_dslash (h +:+ p) = has_dslash p.
Proof.
  induction h as [|c r IH]; [done|].
  cbn [string_forall]. rewrite andb_true_iff. intros [Hc Hr].
  change (String c r +:+ p) with (String c (r +:+ p)). cbn [has_dslash].
  rewrite IH by done.
  destruct (starts_with "//" (String c (r +:+ p))) eqn:E; [|done].
  apply starts_with_dslash in E. by rewrite E in Hc.
Qed.

Lemma string_app_empty h : h +:+ "" = h.
Proof.
  induction h as [|c r IH]; [done|].
  change (String c r +:+ "") with (String c (r +:+ "")). by rewrite IH.
Qed.

Lemma take_until_host stop h p :
  string_forall (fun c => negb (stop c)) h = true ->
  p = "" \/ (exists c r, p = String c r /\ stop c = true) ->
  take_until stop (h +:+ p) = h.
Proof.
  intros Hh [->|(c & r & -> & Hc)].
  - rewrite string_app_empty. by apply take_until_id.
  - by apply take_until_app.
Qed.

End SplitFacts.

Lemma label_char_split c :
  label_char c = true ->
  Tld.is_dot c = false /\ Tld.is_colon c = false /\ Tld.ends_netloc c = false.
Proof.
  unfold label_char, host_char.
  rewrite andb_true_iff, !negb_true_iff, orb_false_iff. tauto.
Qed.

Lemma ends_netloc_slash c : Tld.ends_netloc c = false -> is_slash c = false.
Proof.
  unfold Tld.ends_netloc, is_slash. rewrite !orb_false_iff. tauto.
Qed.


Lemma ldh_label_char c : ldh_char c = true -> label_char c = true.
Proof.
  destruct c as [[] [] [] [] [] [] [] []]; vm_compute; congruence.
Qed.

Lemma scheme_ident_scheme_char c :
  scheme_ident_char c = true -> scheme_char c = true.
Proof.
  destruct c as [[] [] [] [] [] [] [] []]; vm_compute; congruence.
Qed.

Lemma plain_label_chars l :
  plain_label l = true -> l <> "" /\ string_forall label_char l = true.
Proof.
  unfold plain_label. rewrite !andb_true_iff, negb_true_iff.
  intros [[Hne Hl] _]. split.
  - intros ->. done.
  - eapply string_forall_impl; [|exact Hl]. apply ldh_label_char.
Qed.


(** * The claims *)

(** ** Health prober *)

(** C1. A response with status code [s] is classified UP when
    [200 <= s < 300] and DOWN for every other status code. *)
Theorem C1_status_classification env d url s w :
  d !! "url" = Some url ->
  env_http env (requests_made w) (request_for d url) = Responded s ->
  (200 <= s < 300 -> (check_health env (PyDict d) w).1 = Ok "UP")
  /\ (~ 200 <= s < 300 -> (check_health env (PyDict d) w).1 = Ok "DOWN").
Proof.
  intros Hurl Hs. rewrite (check_health_dict _ _ _ _ Hurl), Hs. cbn [fst].
  split; intros H.
  - replace ((200 <=? s) && (s <? 300)) with true; [done|].
    symmetry. apply andb_true_iff. split; [apply Z.leb_le|apply Z.ltb_lt]; lia.
  - replace ((200 <=? s) && (s <? 300)) with false; [done|].
    symmetry. apply andb_false_iff.
    destruct (Z.leb_spec 200 s); [right|by left]. apply Z.ltb_ge. lia.
Qed.

Lemma C1_witness :
  (check_health (sample_env PyNone (always (Responded 204)))
     (endpoint "a" "http://example.com/") world0).1 = Ok "UP".
Proof.
  refine (proj1 (C1_status_classification _ _ (PyStr "http://example.com/")
                   204 world0 _ _) _).
  - reflexivity.
  - reflexivity.
  - lia.
Defined.

Example status_404_is_down :
  (check_health (sample_env PyNone (always (Responded 404)))
     (endpoint "a" "http://example.com/") world0).1 = Ok "DOWN".
Proof. reflexivity. Qed.

Example status_301_is_down :
  (check_health (sample_env PyNone (always (Responded 301)))
     (endpoint "a" "http://example.com/") world0).1 = Ok "DOWN".
Proof. reflexivity. Qed.

(** A valid record on which [check_health] raises: the transport fails
    with a [ValueError], as [urllib3]'s [LocationParseError] is one, and
    the [except] clause lets it pass. *)
Lemma C2_counterexample :
  ~ (forall env d u w,
       d !! "url" = Some (PyStr u) ->
       (check_health env (PyDict d) w).1 = Ok "UP"
       \/ (check_health env (PyDict d) w).1 = Ok "DOWN").
Proof.
  intros H.
  assert (Hurl : (<["name" := PyStr "a"]>
                    (<["url" := PyStr "http://example.com/"]> ∅) : gmap string PyVal)
                 !! "url" = Some (PyStr "http://example.com/"))
    by reflexivity.
  destruct (H (sample_env PyNone (always (Failed ValueError))) _ _ world0 Hurl)
    as [E|E]; vm_compute in E; discriminate E.
Qed.

(** C2, amended.  For a record with a string [url], [check_health]
    returns UP or DOWN whenever the request ends in a response or in an
    exception of the [requests] library; each such exception (time-out,
    refused connection, failed name resolution) gives DOWN.  An exception
    that the transport raises outside [RequestException] leaves the
    function as it is, and nothing else does. *)
Theorem C2_check_health_outcomes env d u w :
  d !! "url" = Some (PyStr u) ->
  (forall s,
      env_http env (requests_made w) (request_for d (PyStr u)) = Responded s ->
      (check_health env (PyDict d) w).1 = Ok "UP"
      \/ (check_health env (PyDict d) w).1 = Ok "DOWN")
  /\ (forall k,
        env_http env (requests_made w) (request_for d (PyStr u))
        = Failed (RequestException k) ->
        (check_health env (PyDict d) w).1 = Ok "DOWN")
  /\ (forall e,
        (check_health env (PyDict d) w).1 = Raise e
        <-> env_http env (requests_made w) (request_for d (PyStr u)) = Failed e
            /\ is_RequestException e = false).
Proof.
  intros Hurl. rewrite (check_health_dict _ _ _ _ Hurl).
  destruct (env_http env (requests_made w) (request_for d (PyStr u))) as [s|e].
  - split; [|split]; [|done|].
    + intros _ _. destruct ((200 <=? s) && (s <? 300)); auto.
    + intros e. split; [|by intros [? _]].
      by destruct ((200 <=? s) && (s <? 300)).
  - split; [done|]. split.
    + by intros k [= ->].
    + intros e'. split.
      * destruct (is_RequestException e) eqn:E; [done|].
        cbn [fst]. by intros [= <-].
      * intros [[= ->] ->]. done.
Qed.

Lemma C2_witness :
  (check_health (sample_env PyNone (always (Failed (RequestException ReadTimeout))))
     (endpoint "a" "http://example.com/") world0).1 = Ok "DOWN".
Proof.
  refine (proj1 (proj2 (C2_check_health_outcomes _ _ "http://example.com/"
                          world0 _)) ReadTimeout _).
  - reflexivity.
  - reflexivity.
Defined.

(** ** Configuration *)

(** C7. When the file cannot be read or does not parse, the run ends
    with the exception before the loop starts: no request is made and
    nothing is printed, for any number of cycles the loop was allowed. *)
Theorem C7_config_failure_is_fatal env n prog path :
  env_read env path = None
  \/ (exists text, env_read env path = Some text /\ env_yaml env text = None) ->
  exists e, (e = OSError \/ e = YAMLError)
    /\ Monitor.main env n [prog; path]
       = (Crashed e,
          mkWorld 0 0 [EvLog INFO "Starting endpoint monitor.";
                       EvLog INFO "Load config file."])
    /\ Main.main env n [prog; path] = (Crashed e, world0).
Proof.
  intros [Hread|(text & Hread & Hyaml)].
  - exists OSError. split; [auto|].
    unfold Monitor.main, Main.main, Monitor.monitor_endpoints,
      Main.monitor_endpoints, Monitor.load_config, Main.load_config,
      bind, log, emit, lift.
    rewrite Hread. done.
  - exists YAMLError. split; [auto|].
    unfold Monitor.main, Main.main, Monitor.monitor_endpoints,
      Main.monitor_endpoints, Monitor.load_config, Main.load_config,
      bind, log, emit, lift.
    rewrite Hread, Hyaml. done.
Qed.

Lemma C7_witness :
  exists e, (e = OSError \/ e = YAMLError)
    /\ Monitor.main no_file_env 5 ["monitor.py"; "missing.yaml"]
       = (Crashed e,
          mkWorld 0 0 [EvLog INFO "Starting endpoint monitor.";
                       EvLog INFO "Load config file."])
    /\ Main.main no_file_env 5 ["monitor.py"; "missing.yaml"]
       = (Crashed e, world0).
Proof.
  apply (C7_config_failure_is_fatal no_file_env 5%nat "monitor.py" "missing.yaml").
  left. reflexivity.
Defined.

Lemma record_ok_missing_url d :
  d !! "url" = None -> Monitor.record_ok (PyDict d) = false.
Proof.
  intros H. unfold Monitor.record_ok. rewrite H.
  rewrite (bool_decide_eq_false_2 (is_Some None)) by (intros [? ?]; done).
  by rewrite andb_false_r.
Qed.

(** C4. What [monitor.py] does with a config whose first record has no
    [url]: the schema error is logged, then the subscript
    [endpoint["url"]] of the first sweep raises [KeyError], which nothing
    catches; the run ends there, before any request or report. *)
Theorem C4_missing_url_crashes env n prog path text d rest :
  env_read env path = Some text ->
  env_yaml env text = Some (PyList (PyDict d :: rest)) ->
  d !! "url" = None ->
  Monitor.main env (S n) [prog; path]
  = (Crashed (KeyError "url"),
     mkWorld 0 0
       [EvLog INFO "Starting endpoint monitor.";
        EvLog INFO "Load config file.";
        EvLog INFO "Validating YAML schema.";
        EvLog ERROR ("SchemaError:"
                     +:+ env_schema_text env (PyList (PyDict d :: rest)))]).
Proof.
  intros Hread Hyaml Hurl.
  unfold Monitor.main, Monitor.monitor_endpoints, Monitor.load_config,
    Monitor.check_schema, bind, log, emit, lift, ret.
  rewrite Hread, Hyaml. cbn [Monitor.schema_ok forallb].
  rewrite (record_ok_missing_url d Hurl). cbn [andb].
  cbn [loop]. unfold cycle, bind, lift. cbn [py_iter sweep].
  unfold probe, bind, lift. cbn [py_getitem]. rewrite Hurl. done.
Qed.

Lemma C4_witness :
  Monitor.main
    (sample_env (PyList [PyDict (<["name" := PyStr "a"]> ∅)])
       (always (Responded 200)))
    1 ["monitor.py"; "config.yaml"]
  = (Crashed (KeyError "url"),
     mkWorld 0 0
       [EvLog INFO "Starting endpoint monitor.";
        EvLog INFO "Load config file.";
        EvLog INFO "Validating YAML schema.";
        EvLog ERROR "SchemaError:Missing key"]).
Proof.
  apply (C4_missing_url_crashes
           (sample_env (PyList [PyDict (<["name" := PyStr "a"]> ∅)])
              (always (Responded 200)))
           0%nat "monitor.py" "config.yaml" "" (<["name" := PyStr "a"]> ∅) []).
  - reflexivity.
  - reflexivity.
  - reflexivity.
Defined.

(** ** Availability aggregator *)

(** C3. After a history of probes in which domain [d] was probed
    [N >= 1] times, [U] of them UP, the table has exactly one percentage
    for [d], it is [round(100 * U / N)], and the report run on that table
    prints the line of [d] with that percentage; 3 of 4 gives 75 and 1 of
    3 gives 33. *)
Theorem C3_availability_after_records hist d w :
  1 <= probes_of d hist ->
  (exists l a,
     snapshot (replay hist []) = Ok l
     /\ (d, a) ∈ l /\ (forall a', (d, a') ∈ l -> a' = a)
     /\ availability (mkStats (ups_of d hist) (probes_of d hist)) = Ok a
     /\ report (replay hist []) w
        = (Ok tt,
           mkWorld (requests_made w) (sleeps_done w) (trace w ++ printed l))
     /\ EvPrint (availability_line d a) ∈ printed l)
  /\ availability (mkStats 3 4) = Ok 75
  /\ availability (mkStats 1 3) = Ok 33.
Proof.
  intros HN. split; [|split; vm_compute; reflexivity].
  destruct (snapshot_sound (replay hist [])) as (l & Hl & Hall & _).
  { apply sound_replay. constructor. }
  pose proof (lookup_replay d hist HN) as Hlook.
  destruct (snapshot_lookup _ _ _ _ Hall Hlook) as (a & Hin & Ha).
  exists l, a. split; [done|]. split; [done|]. split.
  { intros a' Hin'. apply (assoc_unique l d); [|done..].
    rewrite (snapshot_keys _ _ Hall). apply NoDup_keys_replay. constructor. }
  split; [done|]. split; [by apply report_snapshot|].
  unfold printed. apply list_elem_of_fmap. by exists (d, a).
Qed.

Lemma C3_witness :
  (exists l a,
     snapshot (replay [("example.com", "UP"); ("example.com", "DOWN");
                       ("example.com", "UP"); ("example.com", "UP")] []) = Ok l
     /\ ("example.com", a) ∈ l
     /\ (forall a', ("example.com", a') ∈ l -> a' = a)
     /\ availability (mkStats 3 4) = Ok a
     /\ report (replay [("example.com", "UP"); ("example.com", "DOWN");
                        ("example.com", "UP"); ("example.com", "UP")] []) world0
        = (Ok tt, mkWorld 0 0 ([] ++ printed l))
     /\ EvPrint (availability_line "example.com" a) ∈ printed l)
  /\ availability (mkStats 3 4) = Ok 75
  /\ availability (mkStats 1 3) = Ok 33.
Proof.
  apply (C3_availability_after_records
           [("example.com", "UP"); ("example.com", "DOWN");
            ("example.com", "UP"); ("example.com", "UP")] "example.com" world0).
  vm_compute. discriminate.
Defined.

(** C8. In every cycle of either script the table handed to the report
    has [total >= 1] in each entry: the division never raises, the report
    runs to its end, and the domains it prints are those entries. *)
Theorem C8_total_positive_when_reported
    env domain_of n config endpoints w ds w1 ds' w2 :
  loop env domain_of n config [] w = (Ok ds, w1) ->
  py_iter config = Ok endpoints ->
  sweep env domain_of endpoints ds w1 = (Ok ds', w2) ->
  Forall (fun kv => 1 <= total kv.2) ds'
  /\ exists l,
       snapshot ds' = Ok l
       /\ l.*1 = keys ds'
       /\ report ds' w2
          = (Ok tt,
             mkWorld (requests_made w2) (sleeps_done w2)
               (trace w2 ++ printed l)).
Proof.
  intros Hloop _ Hsweep.
  apply loop_inv in Hloop as (h1 & ->).
  apply sweep_inv in Hsweep as (h2 & -> & _).
  rewrite <- replay_app.
  assert (Hs : Forall (fun kv => sound kv.2) (replay (h1 ++ h2) [])).
  { apply sound_replay. constructor. }
  split; [by apply sound_total|].
  destruct (snapshot_sound _ Hs) as (l & Hl & Hall & _).
  exists l. split; [done|]. split; [by apply snapshot_keys|].
  by apply report_snapshot.
Qed.

Lemma C8_witness :
  Forall (fun kv => 1 <= total kv.2) [("example.com", mkStats 3 4)]
  /\ exists l,
       snapshot [("example.com", mkStats 3 4)] = Ok l
       /\ l.*1 = keys [("example.com", mkStats 3 4)]
       /\ report [("example.com", mkStats 3 4)] monitor_sweep2.2
          = (Ok tt,
             mkWorld (requests_made monitor_sweep2.2)
               (sleeps_done monitor_sweep2.2)
               (trace monitor_sweep2.2 ++ printed l)).
Proof.
  refine (C8_total_positive_when_reported
            two_hosts_env (Monitor.extract_domain two_hosts_env)
            1%nat two_hosts [host_a; host_b] world0
            [("example.com", mkStats 1 2)] monitor_cycle1.2
            [("example.com", mkStats 3 4)] monitor_sweep2.2 _ eq_refl _).
  - vm_compute. reflexivity.
  - vm_compute. reflexivity.
Defined.

(** C9. One [record] adds exactly 1 to the [total] of its domain and 0
    or 1 to its [up], leaves every other entry as it was and removes
    none; a probe that completes is exactly one [record]; in every table
    the loop reaches [0 <= up <= total] holds and the report prints, for
    each entry, an integer between 0 and 100.  Over the life of the run
    nothing is reset: the table after [n + m] cycles is what [m] more
    cycles make of the table after [n]; each domain has its [total]
    grown by exactly one per endpoint of the domain and cycle, its [up]
    grown by at most as much and never shrunk, and no entry is lost. *)
Theorem C9_counters_monotone :
  (forall d r ds,
      total (counts d (record d r ds)) = total (counts d ds) + 1
      /\ up (counts d ds) <= up (counts d (record d r ds)) <= up (counts d ds) + 1
      /\ (forall k, k <> d -> ds_lookup k (record d r ds) = ds_lookup k ds)
      /\ (forall k, is_Some (ds_lookup k ds) ->
                    is_Some (ds_lookup k (record d r ds))))
  /\ (forall env domain_of ds endpoint w ds' w',
        probe env domain_of ds endpoint w = (Ok ds', w') ->
        exists domain result, ds' = record domain result ds)
  /\ (forall env domain_of n config w ds w',
        loop env domain_of n config [] w = (Ok ds, w') ->
        Forall (fun kv => 0 <= up kv.2 <= total kv.2) ds
        /\ exists l,
             snapshot ds = Ok l /\ Forall (fun ka => 0 <= ka.2 <= 100) l
             /\ forall w1,
                  report ds w1
                  = (Ok tt,
                     mkWorld (requests_made w1) (sleeps_done w1)
                       (trace w1 ++ printed l)))
  /\ (forall env domain_of n m config endpoints w ds2 w2,
        py_iter config = Ok endpoints ->
        loop env domain_of (n + m) config [] w = (Ok ds2, w2) ->
        exists ds1 w1,
          loop env domain_of n config [] w = (Ok ds1, w1)
          /\ loop env domain_of m config ds1 w1 = (Ok ds2, w2)
          /\ forall d,
               total (counts d ds2)
               = total (counts d ds1)
                 + Z.of_nat m * endpoints_of domain_of d endpoints
               /\ up (counts d ds1) <= up (counts d ds2)
                  <= up (counts d ds1)
                     + Z.of_nat m * endpoints_of domain_of d endpoints
               /\ (is_Some (ds_lookup d ds1) -> is_Some (ds_lookup d ds2))).
Proof.
  split; [|split; [|split]].
  - intros d r ds. rewrite counts_record_eq.
    split; [|split; [|split]].
    + unfold step. destruct (String.eqb r "UP"); simpl; lia.
    + unfold step. destruct (String.eqb r "UP"); simpl; lia.
    + intros k Hk. by rewrite record_bump, ds_lookup_bump_ne.
    + intros k Hk. destruct (decide (k = d)) as [->|Hne].
      * rewrite record_bump, ds_lookup_bump_eq. eauto.
      * by rewrite record_bump, ds_lookup_bump_ne.
  - intros env domain_of ds ep w ds' w' H.
    apply probe_inv in H as (_ & dom & res & _ & _ & _ & ->). eauto.
  - intros env domain_of n config w ds w' H.
    apply loop_inv in H as (hist & ->).
    assert (Hs : Forall (fun kv => sound kv.2) (replay hist [])).
    { apply sound_replay. constructor. }
    split; [by apply sound_up|].
    destruct (snapshot_sound _ Hs) as (l & Hl & _ & Hb).
    exists l. split; [done|]. split; [done|].
    intros w1. by apply report_snapshot.
  - intros env domain_of n m config endpoints w ds2 w2 Hit H.
    rewrite loop_app in H. apply bind_Ok in H as (ds1 & w1 & H1 & H2).
    exists ds1, w1. split; [done|]. split; [done|]. intros d.
    destruct (loop_counts _ _ _ _ _ d _ _ _ _ Hit H2) as [Ht Hu].
    split; [done|]. split; [done|].
    apply loop_inv in H2 as (hist & ->). apply replay_keeps.
Qed.

Lemma C9_witness :
  exists ds1 w1,
    loop two_hosts_env (Monitor.extract_domain two_hosts_env) 1 two_hosts []
      world0 = (Ok ds1, w1)
    /\ loop two_hosts_env (Monitor.extract_domain two_hosts_env) 1 two_hosts
         ds1 w1
       = (Ok [("example.com", mkStats 3 4)],
          (loop two_hosts_env (Monitor.extract_domain two_hosts_env) 2
             two_hosts [] world0).2)
    /\ forall d,
         total (counts d [("example.com", mkStats 3 4)])
         = total (counts d ds1)
           + Z.of_nat 1
             * endpoints_of (Monitor.extract_domain two_hosts_env) d
                 [host_a; host_b]
         /\ up (counts d ds1) <= up (counts d [("example.com", mkStats 3 4)])
            <= up (counts d ds1)
               + Z.of_nat 1
                 * endpoints_of (Monitor.extract_domain two_hosts_env) d
                     [host_a; host_b]
         /\ (is_Some (ds_lookup d ds1)
             -> is_Some (ds_lookup d [("example.com", mkStats 3 4)])).
Proof.
  refine (proj2 (proj2 (proj2 C9_counters_monotone))
            two_hosts_env (Monitor.extract_domain two_hosts_env)
            1%nat 1%nat two_hosts [host_a; host_b] world0
            [("example.com", mkStats 3 4)]
            (loop two_hosts_env (Monitor.extract_domain two_hosts_env) 2
               two_hosts [] world0).2 eq_refl _).
  vm_compute. reflexivity.
Defined.

(** ** Domain keys *)

(** C5. The extractor of [monitor.py] is idempotent on every URL, and
    with the suffixes [com], [uk] and [co.uk] in the list it maps
    ["https://api.shop.example.co.uk:8080/x"] to ["example.co.uk"] and
    ["http://example.com/path"] to ["example.com"]. *)
Theorem C5_extract_domain_idempotent :
  (forall env u,
      exists d, Monitor.extract_domain env (PyStr u) = Ok d
                /\ Monitor.extract_domain env (PyStr d) = Ok d)
  /\ (forall config http,
        Monitor.extract_domain (sample_env config http)
          (PyStr "https://api.shop.example.co.uk:8080/x") = Ok "example.co.uk"
        /\ Monitor.extract_domain (sample_env config http)
             (PyStr "http://example.com/path") = Ok "example.com").
Proof.
  split.
  - intros env u. exists (Tld.registered_domain (env_psl env) u).
    split; [done|]. simpl. by rewrite registered_domain_idempotent.
  - intros config http. split; vm_compute; reflexivity.
Qed.

(** Two endpoints of a sweep whose domain keys are the same string share
    one entry, whatever computes the key. *)
Lemma sweep_combines env domain_of endpoints i j e1 e2 url1 url2 d ds w ds' w' :
  i <> j ->
  endpoints !! i = Some e1 -> endpoints !! j = Some e2 ->
  py_getitem e1 "url" = Ok url1 -> py_getitem e2 "url" = Ok url2 ->
  domain_of url1 = Ok d -> domain_of url2 = Ok d ->
  NoDup (keys ds) ->
  sweep env domain_of endpoints ds w = (Ok ds', w') ->
  NoDup (keys ds')
  /\ exists s, ds_lookup d ds' = Some s /\ total (counts d ds) + 2 <= total s.
Proof.
  intros Hij Hi Hj Hu1 Hu2 Hd1 Hd2 Hnd Hsweep.
  apply sweep_inv in Hsweep as (hist & -> & Hall).
  split; [by apply NoDup_keys_replay|].
  destruct (Forall2_lookup_l _ _ _ _ _ Hall Hi) as (p & Hp & u1 & Hg1 & Hk1).
  destruct (Forall2_lookup_l _ _ _ _ _ Hall Hj) as (q & Hq & u2 & Hg2 & Hk2).
  rewrite Hu1 in Hg1. rewrite Hu2 in Hg2.
  injection Hg1 as <-. injection Hg2 as <-.
  rewrite Hd1 in Hk1. rewrite Hd2 in Hk2.
  injection Hk1 as Hk1. injection Hk2 as Hk2.
  assert (HN : 2 <= probes_of d hist).
  { apply (probes_two d hist i j p q); done. }
  destruct (lookup_replay_is_Some d hist ds ltac:(lia)) as [s Hs].
  exists s. split; [done|].
  pose proof (counts_replay d hist ds) as Hc.
  unfold counts at 1 in Hc. rewrite Hs in Hc. simpl in Hc. rewrite Hc. simpl. lia.
Qed.

(** In [main.py] two URLs with the registrable domain [example.com] and
    different subdomains end up in two entries. *)
Lemma C6_counterexample :
  ~ (forall (e1 e2 : PyVal) (u1 u2 : string) ds' w',
       py_getitem e1 "url" = Ok (PyStr u1) ->
       py_getitem e2 "url" = Ok (PyStr u2) ->
       Tld.registered_domain Tld.sample_psl u1
       = Tld.registered_domain Tld.sample_psl u2 ->
       sweep two_hosts_env Main.domain_key [e1; e2] [] world0 = (Ok ds', w') ->
       length ds' = 1%nat).
Proof.
  intros H.
  specialize (H host_a host_b "https://a.example.com/health"
                "https://b.example.com:8443/"
                [("a.example.com", mkStats 0 1);
                 ("b.example.com:8443", mkStats 1 1)]
                main_sweep1.2 eq_refl eq_refl).
  assert (Hlen : length [("a.example.com", mkStats 0 1);
                         ("b.example.com:8443", mkStats 1 1)] = 1%nat).
  { apply H; vm_compute; reflexivity. }
  discriminate Hlen.
Qed.

(** C6, amended.  Two endpoints of a config whose domain keys are equal
    are recorded into one entry, with no second entry for that key: in
    [monitor.py] the key is the registrable domain, so two URLs with the
    same registrable domain and different subdomains share the entry; in
    [main.py] the key is the text between ["//"] and the next ["/"], so
    they share one only when that text is the same. *)
Theorem C6_same_key_single_entry env endpoints i j e1 e2 u1 u2 d ds w :
  i <> j ->
  endpoints !! i = Some e1 -> endpoints !! j = Some e2 ->
  py_getitem e1 "url" = Ok (PyStr u1) ->
  py_getitem e2 "url" = Ok (PyStr u2) ->
  NoDup (keys ds) ->
  (Tld.registered_domain (env_psl env) u1 = d ->
   Tld.registered_domain (env_psl env) u2 = d ->
   forall ds' w',
     sweep env (Monitor.extract_domain env) endpoints ds w = (Ok ds', w') ->
     NoDup (keys ds')
     /\ exists s, ds_lookup d ds' = Some s
                  /\ total (counts d ds) + 2 <= total s)
  /\ (Main.domain_of_url u1 = d -> Main.domain_of_url u2 = d ->
      forall ds' w',
        sweep env Main.domain_key endpoints ds w = (Ok ds', w') ->
        NoDup (keys ds')
        /\ exists s, ds_lookup d ds' = Some s
                     /\ total (counts d ds) + 2 <= total s).
Proof.
  intros Hij Hi Hj Hu1 Hu2 Hnd. split.
  - intros Hd1 Hd2 ds' w' Hsweep.
    apply (sweep_combines env (Monitor.extract_domain env) endpoints i j
             e1 e2 (PyStr u1) (PyStr u2) d ds w ds' w'); try done.
    + simpl. by rewrite Hd1.
    + simpl. by rewrite Hd2.
  - intros Hd1 Hd2 ds' w' Hsweep.
    apply (sweep_combines env Main.domain_key endpoints i j
             e1 e2 (PyStr u1) (PyStr u2) d ds w ds' w'); try done.
    + simpl. by rewrite Hd1.
    + simpl. by rewrite Hd2.
Qed.

Lemma C6_witness :
  NoDup (keys [("example.com", mkStats 3 4)])
  /\ exists s, ds_lookup "example.com" [("example.com", mkStats 3 4)] = Some s
       /\ total (counts "example.com" [("example.com", mkStats 1 2)]) + 2
          <= total s.
Proof.
  refine (proj1 (C6_same_key_single_entry
                   two_hosts_env [host_a; host_b] 0%nat 1%nat host_a host_b
                   "https://a.example.com/health" "https://b.example.com:8443/"
                   "example.com" [("example.com", mkStats 1 2)]
                   monitor_cycle1.2 _ eq_refl eq_refl _ _ _)
            _ _ [("example.com", mkStats 3 4)] monitor_sweep2.2 _).
  - lia.
  - reflexivity.
  - reflexivity.
  - apply NoDup_singleton.
  - vm_compute. reflexivity.
  - vm_compute. reflexivity.
  - vm_compute. reflexivity.
Defined.

(** A URL with a subdomain and a port: [main.py] keeps both in its key,
    [monitor.py] drops them. *)
Lemma C10_counterexample :
  ~ (forall u,
       Main.domain_key (PyStr u)
       = Monitor.extract_domain (sample_env PyNone (always (Responded 200)))
           (PyStr u)).
Proof.
  intros H. specialize (H "https://api.shop.example.co.uk:8080/x").
  vm_compute in H. discriminate H.
Qed.

(** C10, amended.  The two scripts compute the same key for a URL
    [scheme://host/path] whose scheme is not empty and made of letters,
    digits, [+], [-] and [.], whose host is itself a registrable domain,
    one plain label before a public suffix of plain labels, with no user
    info and no port, and whose path has no ["//"]: both give the
    host. *)
Theorem C10_keys_agree_on_bare_domains env scheme d suffix path :
  scheme <> "" ->
  string_forall scheme_ident_char scheme = true ->
  plain_label d = true ->
  Forall (fun l => plain_label l = true) suffix ->
  suffix <> [] -> suffix ∈ env_psl env -> d :: suffix ∉ env_psl env ->
  path = "" \/ (starts_with "/" path = true /\ has_dslash path = false) ->
  Main.domain_key
    (PyStr (scheme +:+ "://" +:+ Tld.join_dot (d :: suffix) +:+ path))
  = Ok (Tld.join_dot (d :: suffix))
  /\ Monitor.extract_domain env
       (PyStr (scheme +:+ "://" +:+ Tld.join_dot (d :: suffix) +:+ path))
     = Ok (Tld.join_dot (d :: suffix)).
Proof.
  intros Hsch0 Hscheme0 Hd0 Hsuf0 Hsne Hin Hout Hpath.
  assert (Hscheme : string_forall scheme_char scheme = true).
  { eapply string_forall_impl; [|exact Hscheme0]. apply scheme_ident_scheme_char. }
  destruct (plain_label_chars d Hd0) as [Hdne Hd].
  assert (Hsuf : Forall (fun l => string_forall label_char l = true) suffix).
  { eapply Forall_impl; [exact Hsuf0|]. intros l Hl.
    by destruct (plain_label_chars l Hl). }
  set (h := Tld.join_dot (d :: suffix)).
  assert (Hall : Forall (fun l => string_forall label_char l = true) (d :: suffix))
    by (by constructor).
  assert (Hh : string_forall host_char h = true).
  { apply join_chars; [done|]. eapply Forall_impl; [exact Hall|].
    intros l. simpl. apply string_forall_impl. by intros c [_ ?]%andb_true_iff. }
  assert (Hnoslash : string_forall (fun c => negb (is_slash c)) h = true).
  { eapply string_forall_impl; [|exact Hh]. intros c Hc.
    apply host_char_split in Hc as [_ Hc]. by rewrite (ends_netloc_slash c Hc). }
  assert (Hnonet : string_forall (fun c => negb (Tld.ends_netloc c)) h = true).
  { eapply string_forall_impl; [|exact Hh]. intros c Hc.
    apply host_char_split in Hc as [_ Hc]. by rewrite Hc. }
  assert (Hnocolon : string_forall (fun c => negb (Tld.is_colon c)) h = true).
  { eapply string_forall_impl; [|exact Hh]. intros c Hc.
    apply host_char_split in Hc as [Hc _]. by rewrite Hc. }
  assert (Hp : path = "" \/ exists c r, path = String c r /\ is_slash c = true).
  { destruct Hpath as [->|[Hsw _]]; [by left|right].
    destruct path as [|c r]; [done|]. exists c, r. split; [done|].
    cbn [starts_with] in Hsw. rewrite andb_true_r in Hsw.
    unfold is_slash. by rewrite Ascii.eqb_sym. }
  assert (Hp' : path = ""
                \/ exists c r, path = String c r /\ Tld.ends_netloc c = true).
  { destruct Hp as [->|(c & r & -> & Hc)]; [by left|right].
    exists c, r. split; [done|]. unfold is_slash in Hc. unfold Tld.ends_netloc.
    by rewrite Hc. }
  split.
  - unfold Main.domain_key, Main.domain_of_url, py_split. f_equal.
    rewrite split_dslash_scheme by done.
    rewrite split_dslash_none.
    + cbn [List.last]. rewrite split_slash_hd. cbn [rev_string].
      by apply take_until_host.
    + rewrite has_dslash_app by done.
      destruct Hpath as [->|[_ ?]]; done.
  - unfold Monitor.extract_domain, Tld.registered_domain, Tld.host. f_equal.
    rewrite after_scheme_app.
    2:{ eapply string_forall_impl; [|exact Hscheme]. intros c.
        unfold scheme_char. rewrite negb_true_iff, orb_false_iff.
        by intros [-> _]. }
    cbn [default from_option]. unfold id.
    rewrite (take_until_host Tld.ends_netloc) by done.
    rewrite (take_until_id Tld.is_colon) by done.
    unfold h. rewrite labels_join; [|done|].
    2:{ eapply Forall_impl; [exact Hall|].
        intros l. simpl. apply string_forall_impl. by intros c [? _]%andb_true_iff. }
    rewrite suffix_scan_registrable.
    + destruct (String.eqb_spec d ""); done.
    + unfold Tld.in_psl. by apply bool_decide_eq_true_2.
    + done.
    + unfold Tld.in_psl. by apply bool_decide_eq_false_2.
Qed.

Lemma C10_witness :
  Main.domain_key (PyStr "http://example.com/path") = Ok "example.com"
  /\ Monitor.extract_domain (sample_env PyNone (always (Responded 200)))
       (PyStr "http://example.com/path")
     = Ok "example.com".
Proof.
  refine (C10_keys_agree_on_bare_domains
            (sample_env PyNone (always (Responded 200)))
            "http" "example" ["com"] "/path" _ _ _ _ _ _ _ _).
  - discriminate.
  - reflexivity.
  - reflexivity.
  - repeat constructor.
  - discriminate.
  - vm_compute. repeat constructor.
  - vm_compute. intros H.
    repeat (apply elem_of_cons in H as [H|H]; [discriminate H|]).
    by apply elem_of_nil in H.
  - right. split; reflexivity.
Defined.


(** * Further properties of the code *)

(** ** Exact percentages *)

Section FloatExact.

Lemma Zdigits2_gt (m : Z) : 0 <= m -> m < 2 ^ Zdigits2 m.
Proof.
  intros Hm. destruct m as [|p|p]; [done| |lia].
  cbn [Zdigits2]. rewrite digits2_pos_size.
  pose proof (Pos.size_gt p). rewrite <- Pos2Z.inj_pow. lia.
Qed.

Lemma Zdigits2_nonneg m : 0 <= Zdigits2 m.
Proof. destruct m; simpl; lia. Qed.

Lemma shr_1_lower r : 0 <= shr_m r -> shr_m r <= 2 * shr_m (shr_1 r) + 1.
Proof.
  destruct r as [m b s]; simpl. intros Hm.
  destruct m as [|[p|p|]|]; simpl; lia.
Qed.

Lemma iter_pos_shr_1_lower p r :
  0 <= shr_m r ->
  shr_m r < 2 ^ Z.pos p * (shr_m (SpecFloat.iter_pos shr_1 p r) + 1).
Proof.
  revert r. induction p as [p IH|p IH|]; intros r Hr; simpl.
  - pose proof (shr_1_lower r Hr) as H0.
    destruct (shr_1_m r Hr) as [H1 _].
    pose proof (IH _ H1) as H2.
    destruct (iter_pos_shr_1 p _ H1) as [H3 _].
    pose proof (IH _ H3) as H4.
    replace (Z.pos p~1) with (Z.pos p + Z.pos p + 1) by lia.
    rewrite !Z.pow_add_r by lia. change (2 ^ 1) with 2.
    pose proof (pow2_pos (Z.pos p) ltac:(lia)) as HX.
    set (X := 2 ^ Z.pos p) in *.
    set (a := shr_m (shr_1 r)) in *.
    set (b := shr_m (SpecFloat.iter_pos shr_1 p (shr_1 r))) in *.
    set (c := shr_m (SpecFloat.iter_pos shr_1 p
                       (SpecFloat.iter_pos shr_1 p (shr_1 r)))) in *.
    assert (X * (b + 1) <= X * (X * (c + 1))).
    { apply Z.mul_le_mono_nonneg_l; lia. }
    lia.
  - destruct (iter_pos_shr_1 p _ Hr) as [H3 _].
    pose proof (IH _ Hr) as H2. pose proof (IH _ H3) as H4.
    replace (Z.pos p~0) with (Z.pos p + Z.pos p) by lia.
    rewrite !Z.pow_add_r by lia.
    pose proof (pow2_pos (Z.pos p) ltac:(lia)) as HX.
    set (X := 2 ^ Z.pos p) in *.
    set (b := shr_m (SpecFloat.iter_pos shr_1 p r)) in *.
    set (c := shr_m (SpecFloat.iter_pos shr_1 p (SpecFloat.iter_pos shr_1 p r))) in *.
    assert (X * (b + 1) <= X * (X * (c + 1))).
    { apply Z.mul_le_mono_nonneg_l; lia. }
    lia.
  - pose proof (shr_1_lower r Hr). change (2 ^ 1) with 2. lia.
Qed.

Lemma shr_lower r e n :
  0 <= shr_m r -> shr_m r < 2 ^ Z.max n 0 * (shr_m (shr r e n).1 + 1).
Proof.
  intros Hr. destruct n as [|p|p]; unfold shr; cbn [fst snd].
  - change (Z.max 0 0) with 0. rewrite Z.pow_0_r. lia.
  - pose proof (iter_pos_shr_1_lower p r Hr). rewrite Z.max_l by lia. lia.
  - rewrite Z.max_r by lia. rewrite Z.pow_0_r. lia.
Qed.

(** A shift that only drops zero bits is exact. *)
Lemma shr_1_exact m :
  0 <= m -> shr_1 (Build_shr_record (2 * m) false false)
            = Build_shr_record m false false.
Proof. intros Hm. destruct m as [|p|p]; [done|done|lia]. Qed.

Lemma iter_pos_shr_1_exact p m :
  0 <= m ->
  SpecFloat.iter_pos shr_1 p (Build_shr_record (2 ^ Z.pos p * m) false false)
  = Build_shr_record m false false.
Proof.
  revert m. induction p as [p IH|p IH|]; intros m Hm; cbn [SpecFloat.iter_pos].
  - pose proof (pow2_pos (Z.pos p) ltac:(lia)) as HX.
    replace (2 ^ Z.pos p~1 * m) with (2 * (2 ^ Z.pos p * (2 ^ Z.pos p * m))).
    2:{ replace (Z.pos p~1) with (Z.pos p + Z.pos p + 1) by lia.
        rewrite !Z.pow_add_r by lia. change (2 ^ 1) with 2. lia. }
    rewrite shr_1_exact by nia. rewrite IH by nia. by rewrite IH.
  - pose proof (pow2_pos (Z.pos p) ltac:(lia)) as HX.
    replace (2 ^ Z.pos p~0 * m) with (2 ^ Z.pos p * (2 ^ Z.pos p * m)).
    2:{ replace (Z.pos p~0) with (Z.pos p + Z.pos p) by lia.
        rewrite !Z.pow_add_r by lia. lia. }
    rewrite IH by nia. by rewrite IH.
  - change (2 ^ 1) with 2. by apply shr_1_exact.
Qed.

End FloatExact.

Section FloatExact2.

Lemma py_truediv_unfold a b :
  0 < a -> 0 < b -> a <= 100 * b ->
  exists e' Q R,
    -1074 <= e' <= -46
    /\ a * 2 ^ (- e') = b * Q + R /\ 0 <= R < b
    /\ py_truediv a b
       = match binary_round_aux prec emax false Q e' (new_location b R) with
         | S754_infinity _ => Raise OverflowError
         | x => Ok x
         end.
Proof.
  intros Ha Hb Hab. unfold py_truediv.
  destruct (Z.eqb_spec b 0) as [|_]; [lia|].
  destruct (Z.eqb_spec a 0) as [|_]; [lia|].
  destruct (Z.ltb_spec a 0) as [|_]; [lia|].
  destruct (Z.ltb_spec b 0) as [|_]; [lia|].
  rewrite !Z.abs_eq by lia.
  destruct a as [|pa|pa]; [lia| |lia]. destruct b as [|pb|pb]; [lia| |lia].
  cbn [Z.to_pos SFdiv xorb].
  unfold SFdiv_core_binary.
  set (d1 := Zdigits2 (Z.pos pa)). set (d2 := Zdigits2 (Z.pos pb)).
  assert (Hd : d1 - d2 <= 7).
  { assert (Hd2 : 0 <= d2) by apply Zdigits2_nonneg.
    assert (Hlt : Z.pos pa < 2 ^ (d2 + 7)).
    { rewrite Z.pow_add_r by lia. change (2 ^ 7) with 128.
      pose proof (Zdigits2_gt (Z.pos pb) ltac:(lia)). fold d2 in H. lia. }
    pose proof (Zdigits2_lt_pow (Z.pos pa) (d2 + 7) ltac:(lia) ltac:(lia) Hlt).
    unfold d1. lia. }
  rewrite !Z.add_0_r. change (0 - 0) with 0.
  set (e' := Z.min (fexp prec emax (d1 - d2)) 0).
  assert (He' : -1074 <= e' <= -46). { unfold e'. rewrite fexp_binary64. lia. }
  destruct (0 - e') as [|ps|ps] eqn:Es; [lia| |lia].
  rewrite Z.shiftl_mul_pow2 by lia. rewrite <- Es.
  replace (0 - e') with (- e') by lia.
  pose proof (Z_div_mod (Z.pos pa * 2 ^ (- e')) (Z.pos pb) ltac:(lia)) as Hdm.
  destruct (Z.div_eucl (Z.pos pa * 2 ^ (- e')) (Z.pos pb)) as [q r].
  destruct Hdm as [Hdm Hr].
  exists e', q, r. split; [done|]. split; [done|]. split; [lia|]. done.
Qed.

Lemma round_aux_enclosure mx ex lx :
  ex <= -46 -> 0 <= mx <= 100 * 2 ^ (- ex) ->
  exists m e,
    0 <= m /\ ex <= e <= -45
    /\ binary_round_aux prec emax false mx ex lx
       = match m with Z.pos p => S754_finite false p e | _ => S754_zero false end
    /\ (m - 1) * 2 ^ (e - ex) <= mx < (m + 2) * 2 ^ (e - ex).
Proof.
  intros Hex [Hmx0 Hmx].
  set (s := - ex) in *. assert (Hs : 46 <= s) by lia.
  assert (Hmx7 : mx < 2 ^ (s + 7)).
  { rewrite Z.pow_add_r by lia. change (2 ^ 7) with 128.
    pose proof (pow2_pos s). lia. }
  pose proof (Zdigits2_lt_pow mx (s + 7) Hmx0 ltac:(lia) Hmx7) as D1.
  unfold binary_round_aux, shr_fexp.
  set (n1 := fexp prec emax (Zdigits2 mx + ex) - ex).
  assert (N1 : n1 <= s - 46). { unfold n1. rewrite fexp_binary64. lia. }
  pose proof (shr_bounds (shr_record_of_loc mx lx) ex n1) as B1.
  pose proof (shr_lower (shr_record_of_loc mx lx) ex n1) as L1.
  rewrite shr_record_of_loc_m in B1, L1.
  specialize (B1 Hmx0). specialize (L1 Hmx0).
  destruct (shr (shr_record_of_loc mx lx) ex n1) as [r1 e1].
  cbn [fst snd] in B1, L1. destruct B1 as (Hq1 & He1 & Hq1le).
  set (n1' := Z.max n1 0) in *.
  assert (Hn1 : 0 <= n1' <= s - 46) by lia.
  pose proof (round_nearest_even_bounds (shr_m r1) (loc_of_shr_record r1)) as Hm2.
  set (m2 := round_nearest_even (shr_m r1) (loc_of_shr_record r1)) in *.
  set (q1 := shr_m r1) in *.
  pose proof (pow2_pos n1' ltac:(lia)) as HA.
  assert (Hq1lt : q1 < 2 ^ (s + 7 - n1')).
  { assert (E : 2 ^ (s + 7) = 2 ^ n1' * 2 ^ (s + 7 - n1')).
    { rewrite <- Z.pow_add_r by lia. f_equal. lia. }
    rewrite E in Hmx7.
    apply (Z.mul_lt_mono_pos_l (2 ^ n1')); lia. }
  assert (Hm2lt : m2 < 2 ^ (s + 8 - n1')).
  { replace (s + 8 - n1') with (s + 7 - n1' + 1) by lia.
    rewrite Z.pow_add_r by lia. change (2 ^ 1) with 2.
    pose proof (pow2_pos (s + 7 - n1') ltac:(lia)). lia. }
  pose proof (Zdigits2_lt_pow m2 (s + 8 - n1') ltac:(lia) ltac:(lia) Hm2lt) as D2.
  set (n2 := fexp prec emax (Zdigits2 m2 + e1) - e1).
  assert (N2 : n2 <= s - n1' - 45). { unfold n2. rewrite fexp_binary64. lia. }
  pose proof (shr_bounds (shr_record_of_loc m2 loc_Exact) e1 n2) as B2.
  pose proof (shr_lower (shr_record_of_loc m2 loc_Exact) e1 n2) as L2.
  rewrite shr_record_of_loc_m in B2, L2.
  specialize (B2 ltac:(lia)). specialize (L2 ltac:(lia)).
  destruct (shr (shr_record_of_loc m2 loc_Exact) e1 n2) as [r2 e2].
  cbn [fst snd] in B2, L2. destruct B2 as (Hm3 & He2 & Hm3le).
  set (n2' := Z.max n2 0) in *.
  assert (Hn2 : 0 <= n2' /\ n1' + n2' <= s - 45) by lia.
  pose proof (pow2_pos n2' ltac:(lia)) as HB.
  set (m3 := shr_m r2) in *.
  exists m3, e2. split; [done|]. split; [lia|].
  assert (Ek : 2 ^ (e2 - ex) = 2 ^ n1' * 2 ^ n2').
  { rewrite <- Z.pow_add_r by lia. f_equal. lia. }
  split.
  - destruct m3 as [|p|p]; [done| |lia].
    replace (e2 <=? emax - prec) with true
      by (symmetry; apply Z.leb_le; unfold emax, prec; lia).
    done.
  - rewrite Ek. set (A := 2 ^ n1') in *. set (B := 2 ^ n2') in *.
    assert (H1 : A * (B * m3) <= A * (q1 + 1)).
    { apply Z.mul_le_mono_nonneg_l; lia. }
    assert (H2 : A * (q1 + 1) <= A * (B * (m3 + 1) + 1)).
    { apply Z.mul_le_mono_nonneg_l; lia. }
    assert (H3 : A * 1 <= A * B) by (apply Z.mul_le_mono_nonneg_l; lia).
    split; lia.
Qed.

Lemma round_aux_exact c j ex :
  0 < c < 2 ^ 8 -> 0 <= j -> -1074 <= ex -> ex + j <= 0 ->
  exists n,
    0 <= n <= j
    /\ binary_round_aux prec emax false (c * 2 ^ j) ex loc_Exact
       = S754_finite false (Z.to_pos (c * 2 ^ (j - n))) (ex + n).
Proof.
  intros Hc Hj Hex Hsum.
  pose proof (pow2_pos j Hj) as HJ.
  remember (c * 2 ^ j) as mx eqn:Hmxdef.
  assert (Hmx0 : 0 < mx) by nia.
  assert (Hmxlt : mx < 2 ^ (8 + j)).
  { rewrite Z.pow_add_r by lia. nia. }
  pose proof (Zdigits2_lt_pow mx (8 + j) ltac:(lia) ltac:(lia) Hmxlt) as D1.
  unfold binary_round_aux, shr_fexp.
  set (F := fexp prec emax (Zdigits2 mx + ex)).
  assert (HF : F - ex <= j). { unfold F. rewrite fexp_binary64. lia. }
  assert (Hstep : forall m e, 0 < m -> fexp prec emax (Zdigits2 m + e) <= e ->
            e <= 0 ->
            (let '(mrs, e'') := shr (shr_record_of_loc m loc_Exact) e
                                  (fexp prec emax (Zdigits2 m + e) - e) in
             match shr_m mrs with
             | 0 => S754_zero false
             | Z.pos p => if e'' <=? emax - prec then S754_finite false p e''
                          else S754_infinity false
             | Z.neg _ => S754_nan
             end) = S754_finite false (Z.to_pos m) e).
  { intros m e Hm Hle He.
    destruct (fexp prec emax (Zdigits2 m + e) - e) as [|p|p] eqn:En; [|lia|];
      cbn [shr shr_record_of_loc shr_m];
      (destruct m as [|pm|pm]; [lia| |lia]);
      (replace (e <=? emax - prec) with true
         by (symmetry; apply Z.leb_le; unfold emax, prec; lia)); done. }
  destruct (F - ex) as [|p|p] eqn:En.
  - exists 0. split; [lia|]. cbn [shr shr_record_of_loc shr_m loc_of_shr_record
                                    round_nearest_even].
    rewrite Z.sub_0_r, Z.add_0_r, <- Hmxdef. apply Hstep; [done| |lia]. change (F <= ex). lia.
  - exists (Z.pos p). split; [lia|]. cbn [shr shr_record_of_loc].
    assert (Emx : mx = 2 ^ Z.pos p * (c * 2 ^ (j - Z.pos p))).
    { rewrite Hmxdef. replace j with (Z.pos p + (j - Z.pos p)) at 1 by lia.
      rewrite Z.pow_add_r by lia. lia. }
    pose proof (pow2_pos (j - Z.pos p) ltac:(lia)) as HJ'.
    replace (Build_shr_record mx false false)
      with (Build_shr_record (2 ^ Z.pos p * (c * 2 ^ (j - Z.pos p))) false false)
      by (by rewrite <- Emx).
    rewrite iter_pos_shr_1_exact by nia.
    cbn [shr_m loc_of_shr_record round_nearest_even].
    apply Hstep; [nia| |lia].
    set (m' := c * 2 ^ (j - Z.pos p)) in *.
    assert (Hm'lt : m' < 2 ^ (Zdigits2 mx - Z.pos p)).
    { pose proof (Zdigits2_gt mx ltac:(lia)) as Hgt.
      assert (Hdg : Z.pos p <= Zdigits2 mx).
      { destruct (Z.le_gt_cases (Z.pos p) (Zdigits2 mx)); [done|exfalso].
        assert (2 ^ Zdigits2 mx <= 2 ^ Z.pos p).
        { apply Z.pow_le_mono_r; [lia|]. pose proof (Zdigits2_nonneg mx). lia. }
        pose proof (pow2_pos (Z.pos p) ltac:(lia)). nia. }
      replace (Zdigits2 mx) with (Z.pos p + (Zdigits2 mx - Z.pos p)) in Hgt by lia.
      rewrite Z.pow_add_r in Hgt by lia.
      pose proof (pow2_pos (Z.pos p) ltac:(lia)).
      apply (Z.mul_lt_mono_pos_l (2 ^ Z.pos p)); lia. }
    pose proof (Zdigits2_lt_pow m' (Zdigits2 mx - Z.pos p) ltac:(nia)) as D2.
    assert (Hdg0 : 0 <= Zdigits2 mx - Z.pos p).
    { destruct (Z.le_gt_cases 0 (Zdigits2 mx - Z.pos p)); [done|exfalso].
      rewrite Z.pow_neg_r in Hm'lt by lia. nia. }
    specialize (D2 Hdg0 Hm'lt).
    rewrite fexp_binary64. unfold F in En. rewrite fexp_binary64 in En. lia.
  - exists 0. split; [lia|]. cbn [shr shr_record_of_loc shr_m loc_of_shr_record
                                    round_nearest_even].
    rewrite Z.sub_0_r, Z.add_0_r, <- Hmxdef. apply Hstep; [done| |lia]. change (F <= ex). lia.
Qed.

End FloatExact2.

Section Percent.

Lemma round_half_even_dyadic c i e :
  0 <= c -> 0 <= i -> e = - (i + 1) ->
  round_half_even (c * 2 ^ i) e = round_ratio c 2.
Proof.
  intros Hc Hi He. destruct e as [|p|p]; [lia|lia|].
  unfold round_half_even, round_ratio.
  assert (Ep : Z.pos p = i + 1) by lia.
  pose proof (pow2_pos i Hi) as HI.
  rewrite Ep, Z.pow_add_r by lia. change (2 ^ 1) with 2.
  rewrite (Z.mul_comm (2 ^ i) 2).
  rewrite Z.div_mul_cancel_r by lia.
  rewrite Z.mul_mod_distr_r by lia.
  replace (2 * (c mod 2 * 2 ^ i) ?= 2 * 2 ^ i) with (2 * (c mod 2) ?= 2); [done|].
  pose proof (Z.mod_pos_bound c 2 ltac:(lia)).
  destruct (Z.compare_spec (2 * (c mod 2)) 2);
    symmetry; [apply Z.compare_eq_iff|apply Z.compare_lt_iff|apply Z.compare_gt_iff];
    nia.
Qed.

Lemma round_ratio_half a b c :
  0 < b -> 2 * a = c * b -> round_ratio a b = round_ratio c 2.
Proof.
  intros Hb H. unfold round_ratio.
  pose proof (Z.div_mod c 2 ltac:(lia)) as Hc.
  pose proof (Z.mod_pos_bound c 2 ltac:(lia)) as Hc2.
  set (q := c / 2) in *. set (r := c mod 2) in *.
  assert (Hr : r = 0 \/ r = 1) by lia. destruct Hr as [Hr|Hr]; rewrite Hr in *.
  - assert (Ea : a = q * b) by nia.
    rewrite Ea, Z.div_mul, Z.mod_mul by lia. simpl.
    destruct b; done.
  - assert (Ea : 2 * a = (2 * q + 1) * b) by nia.
    assert (Eq' : a / b = q).
    { symmetry. apply (Z.div_unique a b q (a - b * q)); nia. }
    assert (Em : a mod b = a - b * q).
    { symmetry. apply (Z.mod_unique a b q (a - b * q)); nia. }
    rewrite Eq', Em.
    replace (2 * (a - b * q) ?= b) with Eq; [done|].
    symmetry. apply Z.compare_eq_iff. nia.
Qed.

Lemma new_location_zero b : new_location b 0 = loc_Exact.
Proof. unfold new_location. by destruct (Z.even b). Qed.

Lemma availability_exact u t c :
  0 < u <= t -> 200 * u = c * t ->
  availability (mkStats u t) = Ok (round_ratio c 2).
Proof.
  intros Hu Hc. unfold availability. cbn [up total].
  assert (Hc0 : 0 < c <= 200) by nia.
  destruct (py_truediv_unfold (100 * u) t ltac:(lia) ltac:(lia) ltac:(lia))
    as (e' & Q & R & He' & Hdiv & HR & ->).
  set (j := - e' - 1).
  pose proof (pow2_pos j ltac:(lia)) as HJ.
  assert (Epow : 2 ^ (- e') = 2 * 2 ^ j).
  { replace (- e') with (1 + j) by lia. by rewrite Z.pow_add_r by lia. }
  assert (EQ : Q = c * 2 ^ j /\ R = 0).
  { rewrite Epow in Hdiv.
    assert (Hd : t * (c * 2 ^ j) + 0 = t * Q + R) by nia.
    assert (Q = c * 2 ^ j); [|lia].
    destruct (Z.lt_trichotomy Q (c * 2 ^ j)) as [Hlt|[->|Hgt]]; [|done|]; nia. }
  destruct EQ as [-> ->]. rewrite new_location_zero.
  assert (Hc8 : 0 < c < 2 ^ 8) by (change (2 ^ 8) with 256; lia).
  destruct (round_aux_exact c j e' Hc8 ltac:(lia) ltac:(lia) ltac:(lia))
    as (n & Hn & ->).
  cbn [py_round]. f_equal.
  pose proof (pow2_pos (j - n) ltac:(lia)) as HJn.
  rewrite Z2Pos.id by nia.
  apply round_half_even_dyadic; lia.
Qed.

Lemma round_half_even_enclosed m e k :
  e < 0 -> (2 * k - 1) * 2 ^ (- e) < 2 * m < (2 * k + 1) * 2 ^ (- e) ->
  round_half_even m e = k.
Proof.
  intros He Hm. destruct e as [|p|p]; [lia|lia|].
  unfold round_half_even. change (- Z.neg p) with (Z.pos p) in Hm.
  set (d := 2 ^ Z.pos p) in *.
  assert (Hd : 0 < d) by (apply pow2_pos; lia).
  pose proof (Z.div_mod m d ltac:(lia)) as Hdm.
  pose proof (Z.mod_pos_bound m d Hd) as Hr.
  set (q := m / d) in *. set (r := m mod d) in *.
  assert (Hq : q = k - 1 \/ q = k) by nia.
  destruct (Z.compare_spec (2 * r) d) as [Heq|Hlt|Hgt]; nia.
Qed.

Lemma availability_round_ratio u t :
  0 <= u <= t -> 1 <= t < 2 ^ 40 ->
  availability (mkStats u t) = Ok (round_ratio (100 * u) t).
Proof.
  intros Hu Ht.
  destruct (Z.eq_dec u 0) as [->|Hne].
  - unfold availability, py_truediv, round_ratio. cbn [up total].
    change (100 * 0) with 0.
    destruct (Z.eqb_spec t 0); [lia|]. cbn [Z.eqb py_round].
    rewrite Z.div_0_l, Z.mod_0_l by lia. change (2 * 0) with 0.
    destruct t; [lia|done|lia].
  - pose proof (Z.div_mod (100 * u) t ltac:(lia)) as Hdm.
    pose proof (Z.mod_pos_bound (100 * u) t ltac:(lia)) as Hr.
    destruct (Z.compare_spec (2 * ((100 * u) mod t)) t) as [Heq|Hlt|Hgt].
    + rewrite (availability_exact u t (2 * ((100 * u) / t) + 1)) by nia.
      f_equal. symmetry. apply round_ratio_half; nia.
    + unfold round_ratio.
      replace (2 * ((100 * u) mod t) ?= t) with Lt
        by (symmetry; by apply Z.compare_lt_iff).
      unfold availability. cbn [up total].
      set (a := 100 * u) in *. set (q := a / t) in *. set (r := a mod t) in *.
      destruct (py_truediv_unfold a t ltac:(lia) ltac:(lia) ltac:(lia))
        as (e' & Q & R & He' & Hdiv & HR & ->).
      assert (HQ : 0 <= Q <= 100 * 2 ^ (- e')).
      { pose proof (pow2_pos (- e') ltac:(lia)) as HP.
        set (P := 2 ^ (- e')) in *. split; [nia|].
        apply (Z.mul_le_mono_pos_l _ _ t); [lia|]. nia. }
      destruct (round_aux_enclosure Q e' (new_location t R) ltac:(lia) HQ) as
        (m & e & Hm & He & -> & Hlow & Hhigh).
      set (D := 2 ^ (- e)).
      assert (HD : 2 ^ 45 <= D) by (apply Z.pow_le_mono_r; lia).
      pose proof (pow2_pos (e - e') ltac:(lia)) as HK.
      assert (Es : 2 ^ (- e') = D * 2 ^ (e - e')).
      { unfold D. rewrite <- Z.pow_add_r by lia. f_equal. lia. }
      rewrite Es in Hdiv. set (K := 2 ^ (e - e')) in *.
      assert (H1 : t * (m - 1) <= a * D).
      { apply (Z.mul_le_mono_pos_r _ _ K); [lia|].
        assert (t * ((m - 1) * K) <= t * Q) by (apply Z.mul_le_mono_nonneg_l; lia).
        nia. }
      assert (H2 : a * D < t * (m + 2)).
      { apply (Z.mul_lt_mono_pos_r K); [lia|].
        assert (t * (Q + 1) <= t * ((m + 2) * K))
          by (apply Z.mul_le_mono_nonneg_l; lia).
        nia. }
      change (2 ^ 40) with 1099511627776 in Ht.
      change (2 ^ 45) with 35184372088832 in HD.
      assert (Hm0 : 0 < m) by nia.
      destruct m as [|p|p]; [lia| |lia]. cbn [py_round]. f_equal.
      apply round_half_even_enclosed; [lia|]. fold D.
      assert (Ea : a * D = t * q * D + r * D) by nia.
      split.
      * assert (q * D < Z.pos p + 2).
        { apply (Z.mul_lt_mono_pos_l t); [lia|]. nia. }
        nia.
      * apply (Z.mul_lt_mono_pos_l t); [lia|].
        assert (2 * r * D <= (t - 1) * D) by (apply Z.mul_le_mono_nonneg_r; lia).
        nia.
    + unfold round_ratio.
      replace (2 * ((100 * u) mod t) ?= t) with Gt
        by (symmetry; by apply Z.compare_gt_iff).
      unfold availability. cbn [up total].
      set (a := 100 * u) in *. set (q := a / t) in *. set (r := a mod t) in *.
      destruct (py_truediv_unfold a t ltac:(lia) ltac:(lia) ltac:(lia))
        as (e' & Q & R & He' & Hdiv & HR & ->).
      assert (HQ : 0 <= Q <= 100 * 2 ^ (- e')).
      { pose proof (pow2_pos (- e') ltac:(lia)) as HP.
        set (P := 2 ^ (- e')) in *. split; [nia|].
        apply (Z.mul_le_mono_pos_l _ _ t); [lia|]. nia. }
      destruct (round_aux_enclosure Q e' (new_location t R) ltac:(lia) HQ) as
        (m & e & Hm & He & -> & Hlow & Hhigh).
      set (D := 2 ^ (- e)).
      assert (HD : 2 ^ 45 <= D) by (apply Z.pow_le_mono_r; lia).
      pose proof (pow2_pos (e - e') ltac:(lia)) as HK.
      assert (Es : 2 ^ (- e') = D * 2 ^ (e - e')).
      { unfold D. rewrite <- Z.pow_add_r by lia. f_equal. lia. }
      rewrite Es in Hdiv. set (K := 2 ^ (e - e')) in *.
      assert (H1 : t * (m - 1) <= a * D).
      { apply (Z.mul_le_mono_pos_r _ _ K); [lia|].
        assert (t * ((m - 1) * K) <= t * Q) by (apply Z.mul_le_mono_nonneg_l; lia).
        nia. }
      assert (H2 : a * D < t * (m + 2)).
      { apply (Z.mul_lt_mono_pos_r K); [lia|].
        assert (t * (Q + 1) <= t * ((m + 2) * K))
          by (apply Z.mul_le_mono_nonneg_l; lia).
        nia. }
      change (2 ^ 40) with 1099511627776 in Ht.
      change (2 ^ 45) with 35184372088832 in HD.
      assert (Hm0 : 0 < m) by nia.
      destruct m as [|p|p]; [lia| |lia]. cbn [py_round]. f_equal.
      apply round_half_even_enclosed; [lia|]. fold D.
      assert (Ea : a * D = t * q * D + r * D) by nia.
      split.
      * apply (Z.mul_lt_mono_pos_l t); [lia|].
        assert ((t + 1) * D <= 2 * r * D) by (apply Z.mul_le_mono_nonneg_r; lia).
        nia.
      * assert (Z.pos p - 1 < (q + 1) * D).
        { apply (Z.mul_lt_mono_pos_l t); [lia|].
          assert (r * D < t * D) by (apply Z.mul_lt_mono_pos_r; lia).
          nia. }
        nia.
Qed.

End Percent.

(** ** Runs of the loop *)

Section Runs.

Variable env : Env.
Variable domain_of : PyVal -> Res string.

Lemma probe_run ds d u domain w :
  d !! "url" = Some (PyStr u) -> domain_of (PyStr u) = Ok domain ->
  (forall e, env_http env (requests_made w) (request_for d (PyStr u)) = Failed e ->
             is_RequestException e = true) ->
  probe env domain_of ds (PyDict d) w
  = (Ok (record domain
           (verdict (env_http env (requests_made w) (request_for d (PyStr u)))) ds),
     sent (request_for d (PyStr u)) w).
Proof.
  intros Hurl Hdom Hreq. unfold probe, bind, lift. cbn [py_getitem].
  rewrite Hurl, Hdom, (check_health_dict _ _ _ _ Hurl).
  destruct (env_http env (requests_made w) (request_for d (PyStr u))) as [s|e] eqn:E.
  - done.
  - by rewrite (Hreq e eq_refl).
Qed.

(** A sweep over probeable records sends their requests, in order. *)
Lemma sweep_prefix endpoints ds w :
  Forall probeable endpoints ->
  benign_on env (requests_made w) (length endpoints) ->
  keys_strings domain_of ->
  exists ds',
    sweep env domain_of endpoints ds w
    = (Ok ds',
       mkWorld (requests_made w + length endpoints) (sleeps_done w)
         (trace w ++ (EvRequest <$> omap endpoint_request endpoints))).
Proof.
  intros Hall Hb Hk. revert ds w Hb.
  induction Hall as [|ep eps (d & u & -> & Hurl) _ IH]; intros ds w Hb.
  - exists ds. cbn [sweep]. unfold ret. simpl. rewrite Nat.add_0_r, app_nil_r.
    by destruct w.
  - destruct (Hk u) as [dom Hdom]. cbn [sweep]. unfold bind.
    rewrite (probe_run ds d u dom w Hurl Hdom)
      by (intros e; apply Hb; cbn [length]; lia).
    destruct (IH (record dom (verdict (env_http env (requests_made w)
                                         (request_for d (PyStr u)))) ds)
                (sent (request_for d (PyStr u)) w)) as [ds' ->].
    { intros k r e Hkr. apply Hb. unfold sent in Hkr.
      cbn [requests_made length] in *. lia. }
    exists ds'. f_equal. unfold sent. cbn [requests_made sleeps_done trace].
    cbn [omap list_omap endpoint_request]. rewrite Hurl. cbn [fmap option_fmap option_map].
    rewrite fmap_cons, <- app_assoc. cbn [length]. f_equal. lia.
Qed.

Lemma sweep_run endpoints ds w :
  Forall probeable endpoints -> benign env -> keys_strings domain_of ->
  exists ds',
    sweep env domain_of endpoints ds w
    = (Ok ds',
       mkWorld (requests_made w + length endpoints) (sleeps_done w)
         (trace w ++ (EvRequest <$> omap endpoint_request endpoints))).
Proof.
  intros Hall Hb Hk. apply sweep_prefix; [done| |done].
  intros k r e _. apply Hb.
Qed.

Lemma cycle_run config endpoints ds w ds' w1 l :
  py_iter config = Ok endpoints ->
  sweep env domain_of endpoints ds w = (Ok ds', w1) ->
  snapshot ds' = Ok l ->
  cycle env domain_of config ds w
  = (if env_sleep env (sleeps_done w1) then Raise KeyboardInterrupt else Ok ds',
     mkWorld (requests_made w1) (S (sleeps_done w1))
       (trace w1 ++ printed l ++ [EvPrint "---"; EvSleep 15])).
Proof.
  intros Hit Hsw Hl. unfold cycle, bind, lift. rewrite Hit, Hsw.
  rewrite (report_snapshot ds' l w1 Hl).
  unfold print, emit, time_sleep, ret. cbn [requests_made sleeps_done trace].
  rewrite <- !app_assoc. cbn [app].
  by destruct (env_sleep env (sleeps_done w1)).
Qed.

End Runs.

Section Runs2.

Variable env : Env.
Variable domain_of : PyVal -> Res string.

Lemma printed_not_log l : Forall (fun ev => is_log ev = false) (printed l).
Proof. unfold printed. apply Forall_fmap. by apply Forall_true. Qed.

Lemma requests_not_log (rs : list Request) :
  Forall (fun ev => is_log ev = false) (EvRequest <$> rs).
Proof. apply Forall_fmap. by apply Forall_true. Qed.

(** One cycle over a list of probeable records. *)
Lemma cycle_probeable config endpoints ds w :
  py_iter config = Ok endpoints ->
  Forall probeable endpoints -> benign env -> keys_strings domain_of ->
  Forall (fun kv => sound kv.2) ds ->
  exists ds' T,
    cycle env domain_of config ds w
    = (if env_sleep env (sleeps_done w) then Raise KeyboardInterrupt else Ok ds',
       mkWorld (requests_made w + length endpoints) (S (sleeps_done w))
         (trace w ++ T))
    /\ Forall (fun kv => sound kv.2) ds'
    /\ Forall (fun ev => is_log ev = false) T.
Proof.
  intros Hit Hall Hb Hk Hs.
  destruct (sweep_run env domain_of endpoints ds w Hall Hb Hk) as [ds' Hsw].
  assert (Hs' : Forall (fun kv => sound kv.2) ds').
  { destruct (sweep_inv _ _ _ _ _ _ _ Hsw) as (hist & -> & _).
    by apply sound_replay. }
  destruct (snapshot_sound ds' Hs') as (l & Hl & _ & _).
  exists ds', ((EvRequest <$> omap endpoint_request endpoints)
               ++ printed l ++ [EvPrint "---"; EvSleep 15]).
  split; [|split; [done|]].
  - rewrite (cycle_run env domain_of config endpoints ds w ds' _ l Hit Hsw Hl).
    cbn [requests_made sleeps_done trace]. by rewrite <- !app_assoc.
  - apply Forall_app. split; [apply requests_not_log|].
    apply Forall_app. split; [apply printed_not_log|]. by repeat constructor.
Qed.

Lemma loop_run config endpoints n ds w :
  py_iter config = Ok endpoints ->
  Forall probeable endpoints -> benign env -> keys_strings domain_of ->
  Forall (fun kv => sound kv.2) ds ->
  (forall j, (sleeps_done w <= j < sleeps_done w + n)%nat -> env_sleep env j = false) ->
  exists ds' T,
    loop env domain_of n config ds w
    = (Ok ds',
       mkWorld (requests_made w + n * length endpoints) (sleeps_done w + n)
         (trace w ++ T))
    /\ Forall (fun kv => sound kv.2) ds'
    /\ Forall (fun ev => is_log ev = false) T.
Proof.
  intros Hit Hall Hb Hk. revert ds w.
  induction n as [|n IH]; intros ds w Hs Hq.
  - exists ds, []. cbn [loop]. unfold ret. simpl.
    rewrite !Nat.add_0_r, app_nil_r. split; [by destruct w|]. split; [done|constructor].
  - destruct (cycle_probeable config endpoints ds w Hit Hall Hb Hk Hs)
      as (ds1 & T1 & Hc & Hs1 & HT1).
    rewrite (Hq (sleeps_done w)) in Hc by lia.
    cbn [loop]. unfold bind. rewrite Hc.
    destruct (IH ds1 (mkWorld (requests_made w + length endpoints)
                        (S (sleeps_done w)) (trace w ++ T1)) Hs1)
      as (ds' & T2 & -> & Hs' & HT2).
    { cbn [sleeps_done]. intros j Hj. apply Hq. lia. }
    exists ds', (T1 ++ T2). cbn [requests_made sleeps_done trace].
    split; [|split; [done|by apply Forall_app]].
    f_equal. rewrite <- app_assoc. f_equal; lia.
Qed.

Lemma loop_interrupted config endpoints k m ds w :
  py_iter config = Ok endpoints ->
  Forall probeable endpoints -> benign env -> keys_strings domain_of ->
  Forall (fun kv => sound kv.2) ds ->
  (forall j, (sleeps_done w <= j < sleeps_done w + k)%nat -> env_sleep env j = false) ->
  env_sleep env (sleeps_done w + k) = true ->
  exists T,
    loop env domain_of (k + S m) config ds w
    = (Raise KeyboardInterrupt,
       mkWorld (requests_made w + S k * length endpoints) (sleeps_done w + S k)
         (trace w ++ T))
    /\ Forall (fun ev => is_log ev = false) T.
Proof.
  intros Hit Hall Hb Hk. revert ds w.
  induction k as [|k IH]; intros ds w Hs Hq Hint.
  - destruct (cycle_probeable config endpoints ds w Hit Hall Hb Hk Hs)
      as (ds1 & T1 & Hc & Hs1 & HT1).
    rewrite Nat.add_0_r in Hint. rewrite Hint in Hc.
    cbn [Nat.add loop]. unfold bind. rewrite Hc.
    exists T1. split; [|done]. f_equal. f_equal; lia.
  - destruct (cycle_probeable config endpoints ds w Hit Hall Hb Hk Hs)
      as (ds1 & T1 & Hc & Hs1 & HT1).
    rewrite (Hq (sleeps_done w)) in Hc by lia.
    cbn [Nat.add loop]. unfold bind. rewrite Hc.
    destruct (IH ds1 (mkWorld (requests_made w + length endpoints)
                        (S (sleeps_done w)) (trace w ++ T1)) Hs1)
      as (T2 & -> & HT2).
    { cbn [sleeps_done]. intros j Hj. apply Hq. lia. }
    { cbn [sleeps_done]. rewrite <- Hint. f_equal. lia. }
    exists (T1 ++ T2). cbn [requests_made sleeps_done trace].
    split; [|by apply Forall_app].
    f_equal. rewrite <- app_assoc. f_equal; lia.
Qed.

End Runs2.

Lemma main_keys_strings : keys_strings Main.domain_key.
Proof. intros u. by eexists. Qed.

Lemma monitor_keys_strings env : keys_strings (Monitor.extract_domain env).
Proof. intros u. by eexists. Qed.

(** *** The schema *)

Lemma field_ok_spec k v :
  Monitor.field_ok k v = true
  <-> (k = "name" /\ exists s, v = PyStr s)
      \/ (k = "url" /\ exists s, v = PyStr s)
      \/ (k = "method" /\ exists s, v = PyStr s)
      \/ (k = "headers" /\ exists h, v = PyDict h)
      \/ (k = "body" /\ exists s, v = PyStr s).
Proof.
  assert (Hs : forall x, Monitor.is_str x = true <-> exists s, x = PyStr s).
  { intros x. destruct x; split; try done; eauto; by intros [? ?]. }
  assert (Hd : forall x, Monitor.is_dict x = true <-> exists h, x = PyDict h).
  { intros x. destruct x; split; try done; eauto; by intros [? ?]. }
  unfold Monitor.field_ok.
  destruct (String.eqb_spec k "name") as [->|H1].
  { rewrite Hs. split; [auto|]. by intros [[_ ?]|[[? _]|[[? _]|[[? _]|[? _]]]]]. }
  destruct (String.eqb_spec k "url") as [->|H2].
  { rewrite Hs. split; [auto|]. by intros [[? _]|[[_ ?]|[[? _]|[[? _]|[? _]]]]]. }
  destruct (String.eqb_spec k "method") as [->|H3].
  { rewrite Hs. split; [auto|]. by intros [[? _]|[[? _]|[[_ ?]|[[? _]|[? _]]]]]. }
  destruct (String.eqb_spec k "headers") as [->|H4].
  { rewrite Hd. split; [auto 6|]. by intros [[? _]|[[? _]|[[? _]|[[_ ?]|[? _]]]]]. }
  destruct (String.eqb_spec k "body") as [->|H5].
  { rewrite Hs. split; [auto 6|]. by intros [[? _]|[[? _]|[[? _]|[[? _]|[_ ?]]]]]. }
  split; [done|]. by intros [[? _]|[[? _]|[[? _]|[[? _]|[? _]]]]].
Qed.

Lemma record_ok_conforming d : Monitor.record_ok (PyDict d) = true <-> conforming d.
Proof.
  unfold Monitor.record_ok, conforming.
  rewrite !andb_true_iff, !bool_decide_eq_true, forallb_forall.
  split.
  - intros [[[n Hn] [u Hu]] Hall].
    assert (Hf : forall k v, d !! k = Some v -> Monitor.field_ok k v = true).
    { intros k v Hkv. apply (Hall (k, v)).
      apply list_elem_of_In. by apply elem_of_map_to_list. }
    split; [|split; [|split; [|split; [|split]]]].
    + pose proof (proj1 (field_ok_spec _ _) (Hf _ _ Hn)) as H.
      destruct H as [[_ [s ->]]|[[? _]|[[? _]|[[? _]|[? _]]]]]; try done. eauto.
    + pose proof (proj1 (field_ok_spec _ _) (Hf _ _ Hu)) as H.
      destruct H as [[? _]|[[_ [s ->]]|[[? _]|[[? _]|[? _]]]]]; try done. eauto.
    + intros v Hv. apply Hf, field_ok_spec in Hv.
      by destruct Hv as [[? _]|[[? _]|[[_ ?]|[[? _]|[? _]]]]].
    + intros v Hv. apply Hf, field_ok_spec in Hv.
      by destruct Hv as [[? _]|[[? _]|[[? _]|[[_ ?]|[? _]]]]].
    + intros v Hv. apply Hf, field_ok_spec in Hv.
      by destruct Hv as [[? _]|[[? _]|[[? _]|[[? _]|[_ ?]]]]].
    + intros k [v Hv]. apply Hf, field_ok_spec in Hv.
      destruct Hv as [[-> _]|[[-> _]|[[-> _]|[[-> _]|[-> _]]]]];
        repeat first [by left | right].
  - intros ([n Hn] & [u Hu] & Hm & Hh & Hb & Hkeys). split; [split; eauto|].
    intros [k v] Hin. apply list_elem_of_In, elem_of_map_to_list in Hin.
    cbn [fst snd]. apply field_ok_spec.
    assert (Hk : k ∈ ["name"; "url"; "method"; "headers"; "body"])
      by (apply Hkeys; eauto).
    rewrite !elem_of_cons, elem_of_nil in Hk.
    destruct Hk as [->|[->|[->|[->|[->|[]]]]]].
    + left. split; [done|]. rewrite Hn in Hin. injection Hin as <-. eauto.
    + right; left. split; [done|]. rewrite Hu in Hin. injection Hin as <-. eauto.
    + right; right; left. split; [done|]. by apply Hm.
    + right; right; right; left. split; [done|]. by apply Hh.
    + right; right; right; right. split; [done|]. by apply Hb.
Qed.

Lemma conforming_probeable d : conforming d -> probeable (PyDict d).
Proof. intros (_ & [u Hu] & _). by exists d, u. Qed.

(** ** The entry points *)

Lemma monitor_main_loop env n prog path text config :
  env_read env path = Some text -> env_yaml env text = Some config ->
  Monitor.main env n [prog; path]
  = monitor_exit (loop env (Monitor.extract_domain env) n config []
                    (mkWorld 0 0 (startup_log env config))).
Proof.
  intros Hread Hyaml.
  unfold Monitor.main, Monitor.monitor_endpoints, Monitor.load_config,
    Monitor.check_schema, bind, log, print, emit, lift, ret.
  rewrite Hread, Hyaml. unfold startup_log.
  destruct (Monitor.schema_ok config); cbn [world0 requests_made sleeps_done trace app];
    destruct (loop _ _ _ _ _ _) as [[ds|[]] w]; cbn; by rewrite <- ?app_assoc.
Qed.

Lemma main_main_loop env n prog path text config :
  env_read env path = Some text -> env_yaml env text = Some config ->
  Main.main env n [prog; path]
  = main_exit (loop env Main.domain_key n config [] world0).
Proof.
  intros Hread Hyaml.
  unfold Main.main, Main.monitor_endpoints, Main.load_config, bind, lift, ret,
    print, emit.
  rewrite Hread, Hyaml.
  destruct (loop _ _ _ _ _ _) as [[ds|[]] w]; cbn; done.
Qed.

Lemma sweep_app env domain_of l1 l2 ds w :
  sweep env domain_of (l1 ++ l2) ds w
  = match sweep env domain_of l1 ds w with
    | (Ok ds1, w1) => sweep env domain_of l2 ds1 w1
    | (Raise e, w1) => (Raise e, w1)
    end.
Proof.
  revert ds w. induction l1 as [|x l1 IH]; intros ds w; [done|].
  cbn [app sweep]. unfold bind.
  destruct (probe env domain_of ds x w) as [[ds1|e] w1]; [apply IH|done].
Qed.

Lemma first_down_benign config : benign (sample_env config first_down).
Proof.
  intros k r e. unfold sample_env, first_down. cbn [env_http].
  destruct k; discriminate.
Defined.

Lemma two_hosts_probeable : Forall probeable [host_a; host_b].
Proof.
  constructor; [|constructor; [|constructor]].
  - exists (<["name" := PyStr "a"]>
              (<["url" := PyStr "https://a.example.com/health"]> ∅)),
      "https://a.example.com/health". split; reflexivity.
  - exists (<["name" := PyStr "b"]>
              (<["url" := PyStr "https://b.example.com:8443/"]> ∅)),
      "https://b.example.com:8443/". split; reflexivity.
Defined.

Lemma second_sleep_benign : benign second_sleep_env.
Proof.
  intros k r e. unfold second_sleep_env, first_down. cbn [env_http].
  destruct k; discriminate.
Defined.

Section Runs3.

Variable env : Env.
Variable domain_of : PyVal -> Res string.


(** The first cycle when the list of records stops being probeable because
    an item has no usable ["url"]. *)
Lemma loop_bad_record n before ep rest e w :
  Forall probeable before ->
  benign_on env (requests_made w) (length before) ->
  keys_strings domain_of ->
  match py_getitem ep "url" with
  | Ok url => match domain_of url with Ok _ => False | Raise e' => e' = e end
  | Raise e' => e' = e
  end ->
  loop env domain_of (S n) (PyList (before ++ ep :: rest)) [] w
  = (Raise e,
     mkWorld (requests_made w + length before) (sleeps_done w)
       (trace w ++ (EvRequest <$> omap endpoint_request before))).
Proof.
  intros Hall Hb Hk Hep.
  cbn [loop]. unfold cycle, bind, lift. cbn [py_iter]. rewrite sweep_app.
  destruct (sweep_prefix env domain_of before [] w Hall Hb Hk) as [ds' ->].
  cbn [sweep]. unfold bind at 1. unfold probe, bind, lift.
  destruct (py_getitem ep "url") as [url|e1]; [|by subst].
  destruct (domain_of url) as [dom|e1]; [done|by subst].
Qed.

End Runs3.

(** ** Keys and totals of the table *)

Lemma first_seen_ext s1 s2 l :
  (forall x, x ∈ s1 <-> x ∈ s2) -> first_seen s1 l = first_seen s2 l.
Proof.
  revert s1 s2. induction l as [|d r IH]; intros s1 s2 H; [done|].
  cbn [first_seen].
  destruct (bool_decide_reflect (d ∈ s1)) as [H1|H1].
  - rewrite bool_decide_eq_true_2 by (by apply H). by apply IH.
  - rewrite bool_decide_eq_false_2 by (by rewrite <- H). f_equal.
    apply IH. intros x. rewrite !elem_of_cons, H. done.
Qed.

Lemma first_seen_known seen l :
  (forall x, x ∈ l -> x ∈ seen) -> first_seen seen l = [].
Proof.
  induction l as [|d r IH]; intros H; [done|]. cbn [first_seen].
  rewrite bool_decide_eq_true_2 by (apply H; left).
  apply IH. intros x Hx. apply H. by right.
Qed.

Lemma elem_of_first_seen seen l x :
  x ∈ seen ++ first_seen seen l <-> x ∈ seen \/ x ∈ l.
Proof.
  revert seen. induction l as [|d r IH]; intros seen.
  - cbn [first_seen]. rewrite app_nil_r, elem_of_nil. tauto.
  - cbn [first_seen]. destruct (bool_decide_reflect (d ∈ seen)) as [H1|H1].
    + rewrite IH, elem_of_cons. split; [tauto|]. intros [?|[->|?]]; tauto.
    + specialize (IH (d :: seen)). rewrite elem_of_app in *.
      rewrite !elem_of_cons in *. tauto.
Qed.

Lemma keys_record d r ds :
  keys (record d r ds) = keys ds ++ first_seen (keys ds) [d].
Proof.
  rewrite record_bump, keys_bump. cbn [first_seen].
  destruct (bool_decide (d ∈ keys ds)); [by rewrite app_nil_r|done].
Qed.

Lemma keys_replay hist ds :
  keys (replay hist ds) = keys ds ++ first_seen (keys ds) hist.*1.
Proof.
  revert ds. induction hist as [|[d r] hist IH]; intros ds.
  - cbn. by rewrite app_nil_r.
  - change (replay ((d, r) :: hist) ds) with (replay hist (record d r ds)).
    rewrite IH, keys_record, fmap_cons. cbn [fst first_seen].
    destruct (bool_decide_reflect (d ∈ keys ds)) as [H1|H1].
    + by rewrite app_nil_r.
    + rewrite <- app_assoc. cbn [app]. do 2 f_equal.
      apply first_seen_ext. intros x.
      rewrite elem_of_app, !elem_of_cons, elem_of_nil. tauto.
Qed.

Lemma keyed_keys domain_of endpoints hist :
  Forall2 (keyed domain_of) endpoints hist ->
  omap (endpoint_key domain_of) endpoints = hist.*1.
Proof.
  induction 1 as [|ep p eps hist (url & Hu & Hd) _ IH]; [done|].
  cbn [omap list_omap]. unfold endpoint_key at 1. rewrite Hu, Hd.
  rewrite fmap_cons. by f_equal.
Qed.

Lemma round_ratio_nearest a b :
  0 < b -> 2 * Z.abs (a - round_ratio a b * b) <= b.
Proof.
  intros Hb. unfold round_ratio.
  pose proof (Z.div_mod a b ltac:(lia)) as Hd.
  pose proof (Z.mod_pos_bound a b Hb) as Hr.
  set (q := a / b) in *. set (r := a mod b) in *. clearbody q r.
  destruct (Z.compare_spec (2 * r) b) as [E|E|E].
  - destruct (Z.even q); nia.
  - nia.
  - nia.
Qed.

(** ** The key of [main.py] *)

Lemma domain_of_url_take u :
  Main.domain_of_url u
  = Tld.take_until is_slash (List.last (py_split "//" u) "").
Proof.
  unfold Main.domain_of_url, py_split. by rewrite split_slash_hd.
Qed.

Lemma no_slash_no_dslash s : no_slash s = true -> has_dslash s = false.
Proof.
  intros H. rewrite <- (string_app_empty s). by rewrite has_dslash_app.
Qed.

Lemma split_dslash_last pre skip cur tail :
  (forall p, pre <> p +:+ "/") -> has_dslash tail = false ->
  skip = 0%nat \/ (skip = 1%nat /\ pre <> "") ->
  List.last (split_go "//" skip cur (pre +:+ "//" +:+ tail)) "" = tail.
Proof.
  intros Hend Htail. revert skip cur.
  induction pre as [|c r IH]; intros skip cur Hskip.
  - destruct Hskip as [->|[_ ?]]; [|done].
    change ("" +:+ "//" +:+ tail) with (String "/" (String "/" tail)).
    cbn [split_go starts_with Ascii.eqb Bool.eqb andb String.length Nat.pred].
    by rewrite split_dslash_none.
  - assert (Hend' : forall p, r <> p +:+ "/").
    { intros p ->. by apply (Hend (String c p)). }
    change (String c r +:+ "//" +:+ tail) with (String c (r +:+ "//" +:+ tail)).
    destruct Hskip as [->|[-> _]].
    + cbn [split_go].
      destruct (starts_with "//" (String c (r +:+ "//" +:+ tail))) eqn:E.
      * cbn [String.length Nat.pred].
        pose proof (split_go_nonempty "//" 1 [] (r +:+ "//" +:+ tail)) as Hne.
        transitivity (List.last (split_go "//" 1 [] (r +:+ "//" +:+ tail)) "").
        { by destruct (split_go "//" 1 [] (r +:+ "//" +:+ tail)). }
        apply IH; [done|]. right. split; [done|]. intros ->.
        apply starts_with_dslash in E. unfold is_slash in E.
        apply Ascii.eqb_eq in E as ->. by apply (Hend "").
      * apply IH; auto.
    + cbn [split_go]. apply IH; auto.
Qed.

Lemma not_ending_in_slash (s : string) c :
  c <> "/"%char -> forall p, s +:+ String c "" <> p +:+ "/".
Proof.
  intros Hc. induction s as [|a s IH]; intros p.
  - destruct p as [|b p]; cbn.
    + intros [= ->]. done.
    + destruct p; discriminate.
  - destruct p as [|b p].
    + cbn. destruct s; discriminate.
    + change (String a s +:+ String c "") with (String a (s +:+ String c "")).
      change (String b p +:+ "/") with (String b (p +:+ "/")).
      intros [= -> H]. by apply (IH p).
Qed.

(** ** The properties *)

(** X1. Started with anything but exactly one argument, either script
    prints the usage line and exits with status 1, and [monitor.py] logs
    the line as an error first; no request is sent. *)
Theorem X1_usage_error env n argv :
  length argv <> 2%nat ->
  Monitor.main env n argv
  = (Exited 1, mkWorld 0 0 [EvLog ERROR usage_message; EvPrint usage_message])
  /\ Main.main env n argv = (Exited 1, mkWorld 0 0 [EvPrint usage_message]).
Proof.
  intros Hlen. destruct argv as [|a [|b [|c r]]]; try done.
Qed.

Lemma X1_witness :
  Monitor.main no_file_env 3 ["monitor.py"]
  = (Exited 1, mkWorld 0 0 [EvLog ERROR usage_message; EvPrint usage_message])
  /\ Main.main no_file_env 3 ["monitor.py"]
     = (Exited 1, mkWorld 0 0 [EvPrint usage_message]).
Proof.
  apply (X1_usage_error no_file_env 3%nat ["monitor.py"]). discriminate.
Defined.

(** X2. One probe is one call of [requests.request], whatever the
    transport answers: nothing is retried.  The request carries the
    record's [url] and a timeout of half a second; its method is the
    record's [method], or GET when the key is absent or null. *)
Theorem X2_one_request_per_probe env d url w :
  d !! "url" = Some url ->
  (check_health env (PyDict d) w).2
  = mkWorld (S (requests_made w)) (sleeps_done w)
      (trace w ++ [EvRequest (request_for d url)])
  /\ req_timeout_ms (request_for d url) = 500
  /\ req_url (request_for d url) = url
  /\ (d !! "method" = None \/ d !! "method" = Some PyNone ->
      req_method (request_for d url) = PyStr "GET")
  /\ (forall m, d !! "method" = Some m -> m <> PyNone ->
                req_method (request_for d url) = m).
Proof.
  intros Hurl. rewrite (check_health_dict _ _ _ _ Hurl).
  split; [|split; [done|split; [done|split]]].
  - destruct (env_http env (requests_made w) (request_for d url)); done.
  - intros [H|H]; unfold request_for; cbn [req_method]; by rewrite H.
  - intros m H Hm. unfold request_for. cbn [req_method]. rewrite H. cbn.
    by destruct m.
Qed.

Lemma X2_witness :
  (check_health (sample_env PyNone (always (Failed (RequestException ConnectionError))))
     (endpoint "a" "http://example.com/") world0).2
  = mkWorld 1 0
      [EvRequest (request_for (<["name" := PyStr "a"]>
                                 (<["url" := PyStr "http://example.com/"]> ∅))
                    (PyStr "http://example.com/"))].
Proof.
  refine (proj1 (X2_one_request_per_probe _ _ (PyStr "http://example.com/")
                   world0 _)).
  reflexivity.
Defined.



(** X4. The schema of [monitor.py] accepts exactly the lists of mappings
    that have a string ["name"] and a string ["url"] and whose keys are
    all among the five of the schema, with a string for ["method"] and
    ["body"] and a mapping for ["headers"]. *)
Theorem X4_schema_characterised config :
  Monitor.schema_ok config = true
  <-> exists l, config = PyList l
               /\ Forall (fun r => exists d, r = PyDict d /\ conforming d) l.
Proof.
  split.
  - destruct config as [| | | | |l|]; try done. cbn [Monitor.schema_ok].
    intros H. exists l. split; [done|].
    rewrite forallb_forall in H. apply Forall_forall. intros r Hr.
    apply list_elem_of_In in Hr. specialize (H r Hr).
    destruct r as [| | | | | |d]; try done. exists d. split; [done|].
    by apply record_ok_conforming.
  - intros (l & -> & Hall). cbn [Monitor.schema_ok].
    apply forallb_forall. intros r Hr. apply list_elem_of_In in Hr.
    rewrite Forall_forall in Hall. destruct (Hall r Hr) as (d & -> & Hd).
    by apply record_ok_conforming.
Qed.

Lemma X4_witness : Monitor.schema_ok two_hosts = true.
Proof.
  apply (proj2 (X4_schema_characterised two_hosts)).
  exists [host_a; host_b]. split; [reflexivity|].
  repeat constructor.
  - exists (<["name" := PyStr "a"]>
              (<["url" := PyStr "https://a.example.com/health"]> ∅)).
    split; [reflexivity|]. apply record_ok_conforming. vm_compute. reflexivity.
  - exists (<["name" := PyStr "b"]>
              (<["url" := PyStr "https://b.example.com:8443/"]> ∅)).
    split; [reflexivity|]. apply record_ok_conforming. vm_compute. reflexivity.
Defined.

(** X5. With a list of records that each have a string ["url"], a
    transport that fails only with exceptions of [requests], and no
    interrupt, both scripts are still running after any number [n] of
    cycles, having sent [n] times as many requests as there are records
    and slept [n] times.  In [monitor.py] the schema check has no part in
    this: whatever it found, its only trace is the error line of the
    start-up log, and nothing is logged afterwards. *)
Theorem X5_monitor_keeps_running env n prog path text endpoints :
  env_read env path = Some text ->
  env_yaml env text = Some (PyList endpoints) ->
  Forall probeable endpoints -> benign env ->
  (forall j, env_sleep env j = false) ->
  (exists ds T,
      Monitor.main env n [prog; path]
      = (Running ds,
         mkWorld (n * length endpoints) n
           (startup_log env (PyList endpoints) ++ T))
      /\ Forall (fun ev => is_log ev = false) T)
  /\ (exists ds T,
        Main.main env n [prog; path]
        = (Running ds, mkWorld (n * length endpoints) n T)
        /\ Forall (fun ev => is_log ev = false) T).
Proof.
  intros Hread Hyaml Hall Hb Hq. split.
  - rewrite (monitor_main_loop env n prog path text _ Hread Hyaml).
    destruct (loop_run env (Monitor.extract_domain env) (PyList endpoints)
                endpoints n [] (mkWorld 0 0 (startup_log env (PyList endpoints)))
                eq_refl Hall Hb (monitor_keys_strings env))
      as (ds & T & -> & _ & HT); [constructor|auto|].
    exists ds, T. done.
  - rewrite (main_main_loop env n prog path text _ Hread Hyaml).
    destruct (loop_run env Main.domain_key (PyList endpoints)
                endpoints n [] world0 eq_refl Hall Hb main_keys_strings)
      as (ds & T & -> & _ & HT); [constructor|auto|].
    exists ds, T. done.
Qed.

Lemma X5_witness :
  (exists ds T,
      Monitor.main nameless_env 3 ["monitor.py"; "config.yaml"]
      = (Running ds,
         mkWorld (3 * length [nameless]) 3
           (startup_log nameless_env (PyList [nameless]) ++ T))
      /\ Forall (fun ev => is_log ev = false) T)
  /\ (exists ds T,
        Main.main nameless_env 3 ["monitor.py"; "config.yaml"]
        = (Running ds, mkWorld (3 * length [nameless]) 3 T)
        /\ Forall (fun ev => is_log ev = false) T).
Proof.
  apply (X5_monitor_keeps_running nameless_env 3%nat "monitor.py"
           "config.yaml" "" [nameless] eq_refl eq_refl).
  - constructor; [|constructor].
    exists (<["url" := PyStr "https://example.org/"]> ∅), "https://example.org/".
    split; reflexivity.
  - intros k r e H. discriminate H.
  - intros j. reflexivity.
Defined.

(** X6. What one cycle does, in order: one request per record in the
    order of the config, then one availability line per entry of the
    table, then the line [---], then a sleep of 15 seconds. *)
Theorem X6_cycle_output env domain_of config endpoints ds w :
  py_iter config = Ok endpoints ->
  Forall probeable endpoints -> benign env -> keys_strings domain_of ->
  Forall (fun kv => sound kv.2) ds ->
  env_sleep env (sleeps_done w) = false ->
  exists ds' l,
    snapshot ds' = Ok l
    /\ cycle env domain_of config ds w
       = (Ok ds',
          mkWorld (requests_made w + length endpoints) (S (sleeps_done w))
            (trace w
             ++ (EvRequest <$> omap endpoint_request endpoints)
             ++ printed l
             ++ [EvPrint "---"; EvSleep 15])).
Proof.
  intros Hit Hall Hb Hk Hs Hq.
  destruct (sweep_run env domain_of endpoints ds w Hall Hb Hk) as [ds' Hsw].
  assert (Hs' : Forall (fun kv => sound kv.2) ds').
  { destruct (sweep_inv _ _ _ _ _ _ _ Hsw) as (hist & -> & _).
    by apply sound_replay. }
  destruct (snapshot_sound ds' Hs') as (l & Hl & _ & _).
  exists ds', l. split; [done|].
  rewrite (cycle_run env domain_of config endpoints ds w ds' _ l Hit Hsw Hl).
  cbn [requests_made sleeps_done trace]. rewrite Hq. by rewrite <- !app_assoc.
Qed.

Lemma X6_witness :
  exists ds' l,
    snapshot ds' = Ok l
    /\ cycle two_hosts_env (Monitor.extract_domain two_hosts_env) two_hosts
         [] world0
       = (Ok ds',
          mkWorld (0 + length [host_a; host_b]) 1
            (trace world0
             ++ (EvRequest <$> omap endpoint_request [host_a; host_b])
             ++ printed l
             ++ [EvPrint "---"; EvSleep 15])).
Proof.
  apply (X6_cycle_output two_hosts_env (Monitor.extract_domain two_hosts_env)
           two_hosts [host_a; host_b] [] world0 eq_refl two_hosts_probeable
           (first_down_benign two_hosts) (monitor_keys_strings two_hosts_env)).
  - constructor.
  - reflexivity.
Defined.

(** X7. An interrupt during the sleep of cycle [k + 1] ends either script
    with status 0 after [k + 1] full sweeps; the last output is the
    message that monitoring was stopped, which [monitor.py] logs as an
    error before printing it. *)
Theorem X7_interrupt_during_sleep env n k prog path text endpoints :
  env_read env path = Some text ->
  env_yaml env text = Some (PyList endpoints) ->
  Forall probeable endpoints -> benign env ->
  (forall j, (j < k)%nat -> env_sleep env j = false) ->
  env_sleep env k = true ->
  (k < n)%nat ->
  (exists T,
      Monitor.main env n [prog; path]
      = (Exited 0,
         mkWorld (S k * length endpoints) (S k)
           (startup_log env (PyList endpoints) ++ T
            ++ [EvLog ERROR "KeyboardInterrupt: Monitoring stopped by user.";
                EvPrint stopped_message]))
      /\ Forall (fun ev => is_log ev = false) T)
  /\ (exists T,
        Main.main env n [prog; path]
        = (Exited 0,
           mkWorld (S k * length endpoints) (S k)
             (T ++ [EvPrint stopped_message]))
        /\ Forall (fun ev => is_log ev = false) T).
Proof.
  intros Hread Hyaml Hall Hb Hq Hint Hkn.
  replace n with (k + S (n - S k))%nat by lia. split.
  - rewrite (monitor_main_loop env _ prog path text _ Hread Hyaml).
    destruct (loop_interrupted env (Monitor.extract_domain env) (PyList endpoints)
                endpoints k (n - S k) []
                (mkWorld 0 0 (startup_log env (PyList endpoints)))
                eq_refl Hall Hb (monitor_keys_strings env))
      as (T & -> & HT); [constructor| |done|].
    { cbn [sleeps_done]. intros j Hj. apply Hq. lia. }
    exists T. split; [|done]. cbn [monitor_exit requests_made sleeps_done trace].
    by rewrite <- app_assoc.
  - rewrite (main_main_loop env _ prog path text _ Hread Hyaml).
    destruct (loop_interrupted env Main.domain_key (PyList endpoints)
                endpoints k (n - S k) [] world0
                eq_refl Hall Hb main_keys_strings)
      as (T & -> & HT); [constructor| |done|].
    { intros j Hj. apply Hq. unfold world0 in Hj. cbn [sleeps_done] in Hj. lia. }
    exists T. split; [|done]. done.
Qed.

Lemma X7_witness :
  (exists T,
      Monitor.main second_sleep_env 5 ["monitor.py"; "config.yaml"]
      = (Exited 0,
         mkWorld (2 * length [host_a; host_b]) 2
           (startup_log second_sleep_env (PyList [host_a; host_b]) ++ T
            ++ [EvLog ERROR "KeyboardInterrupt: Monitoring stopped by user.";
                EvPrint stopped_message]))
      /\ Forall (fun ev => is_log ev = false) T)
  /\ (exists T,
        Main.main second_sleep_env 5 ["monitor.py"; "config.yaml"]
        = (Exited 0,
           mkWorld (2 * length [host_a; host_b]) 2
             (T ++ [EvPrint stopped_message]))
        /\ Forall (fun ev => is_log ev = false) T).
Proof.
  apply (X7_interrupt_during_sleep second_sleep_env 5%nat 1%nat "monitor.py"
           "config.yaml" "" [host_a; host_b] eq_refl eq_refl
           two_hosts_probeable second_sleep_benign).
  - intros j Hj. destruct j; [reflexivity|lia].
  - reflexivity.
  - lia.
Defined.



(** X9. A config that is not a list (the empty mapping and the empty
    string apart, which give an empty sweep) ends both scripts in the
    first cycle with [TypeError] before any request: a scalar or null
    cannot be iterated, and the keys of a mapping or the characters of a
    string cannot be subscripted with ["url"].  [monitor.py] has logged
    the schema error and nothing else beyond its start-up lines. *)
Theorem X9_config_not_a_list env n prog path text config :
  env_read env path = Some text ->
  env_yaml env text = Some config ->
  (forall l, config <> PyList l) ->
  config <> PyDict ∅ -> config <> PyStr "" ->
  Monitor.main env (S n) [prog; path]
  = (Crashed TypeError, mkWorld 0 0 (startup_log env config))
  /\ Monitor.schema_ok config = false
  /\ Main.main env (S n) [prog; path] = (Crashed TypeError, world0).
Proof.
  intros Hread Hyaml Hl Hd Hs.
  rewrite (monitor_main_loop env (S n) prog path text _ Hread Hyaml).
  rewrite (main_main_loop env (S n) prog path text _ Hread Hyaml).
  cbn [loop]. unfold cycle, bind, lift.
  destruct config as [| b | z | f | s | l | d]; try done.
  - destruct s as [|c r]; [done|]. done.
  - by destruct (Hl l).
  - cbn [py_iter]. destruct (map_to_list d) as [|[k v] r] eqn:E.
    + apply map_to_list_empty_iff in E. by subst.
    + done.
Qed.

Lemma X9_witness :
  Monitor.main (sample_env PyNone (always (Responded 200))) 1
    ["monitor"; "empty.yaml"]
  = (Crashed TypeError,
     mkWorld 0 0 (startup_log (sample_env PyNone (always (Responded 200))) PyNone))
  /\ Monitor.schema_ok PyNone = false
  /\ Main.main (sample_env PyNone (always (Responded 200))) 1
       ["monitor"; "empty.yaml"]
     = (Crashed TypeError, world0).
Proof.
  apply (X9_config_not_a_list (sample_env PyNone (always (Responded 200)))
           0%nat _ "empty.yaml" "" PyNone eq_refl eq_refl).
  - intros l H. discriminate H.
  - intros H. discriminate H.
  - intros H. discriminate H.
Defined.

(** X10. In [main.py] a record whose ["url"] is not a string ends the run
    in the first cycle with [AttributeError], the value having no
    [split]: the records before it have been requested, its own request
    is never sent. *)
Theorem X10_main_url_not_a_string env n prog path text before d v rest :
  env_read env path = Some text ->
  env_yaml env text = Some (PyList (before ++ PyDict d :: rest)) ->
  Forall probeable before ->
  benign_on env 0 (length before) ->
  d !! "url" = Some v -> (forall u, v <> PyStr u) ->
  Main.main env (S n) [prog; path]
  = (Crashed AttributeError,
     mkWorld (length before) 0 (EvRequest <$> omap endpoint_request before)).
Proof.
  intros Hread Hyaml Hall Hb Hurl Hv.
  rewrite (main_main_loop env (S n) prog path text _ Hread Hyaml).
  rewrite (loop_bad_record env Main.domain_key n before (PyDict d) rest
             AttributeError world0 Hall Hb main_keys_strings).
  - done.
  - cbn [py_getitem]. rewrite Hurl. destruct v; try done. by destruct (Hv s).
Qed.

Lemma X10_witness :
  Main.main
    (sample_env (PyList [PyDict (<["url" := PyInt 8080]> ∅)])
       (always (Responded 200)))
    1 ["main.py"; "config.yaml"]
  = (Crashed AttributeError, mkWorld 0 0 []).
Proof.
  apply (X10_main_url_not_a_string
           (sample_env (PyList [PyDict (<["url" := PyInt 8080]> ∅)])
              (always (Responded 200)))
           0%nat "main.py" "config.yaml" "" [] (<["url" := PyInt 8080]> ∅)
           (PyInt 8080) [] eq_refl eq_refl (Forall_nil_2 _)).
  - intros k r e H. cbn [length] in H. lia.
  - reflexivity.
  - intros u H. discriminate H.
Defined.

(** X11. A config that passes the schema of [monitor.py] cannot crash the
    loop: under a transport that fails only with exceptions of [requests]
    and without interrupt the run is still going after any number of
    cycles, and the log holds the three start-up lines and no error. *)
Theorem X11_valid_config_runs env n prog path text config :
  env_read env path = Some text ->
  env_yaml env text = Some config ->
  Monitor.schema_ok config = true ->
  benign env ->
  (forall j, env_sleep env j = false) ->
  exists endpoints ds T,
    config = PyList endpoints
    /\ Monitor.main env n [prog; path]
       = (Running ds,
          mkWorld (n * length endpoints) n
            ([EvLog INFO "Starting endpoint monitor.";
              EvLog INFO "Load config file.";
              EvLog INFO "Validating YAML schema."] ++ T))
    /\ Forall (fun ev => is_log ev = false) T.
Proof.
  intros Hread Hyaml Hok Hb Hq.
  destruct config as [| | | | |l|]; try done.
  assert (Hall : Forall probeable l).
  { cbn [Monitor.schema_ok] in Hok. clear -Hok.
    induction l as [|ep l IH]; [constructor|].
    cbn [forallb] in Hok. apply andb_true_iff in Hok as [Hep Hl].
    constructor; [|by apply IH].
    destruct ep as [| | | | | |d]; try done.
    by apply conforming_probeable, record_ok_conforming. }
  rewrite (monitor_main_loop env n prog path text _ Hread Hyaml).
  destruct (loop_run env (Monitor.extract_domain env) (PyList l)
              l n [] (mkWorld 0 0 (startup_log env (PyList l)))
              eq_refl Hall Hb (monitor_keys_strings env))
    as (ds & T & -> & _ & HT); [constructor|auto|].
  exists l, ds, T. split; [done|]. split; [|done].
  unfold startup_log, monitor_exit. rewrite Hok. cbn [requests_made sleeps_done trace Nat.add].
  by rewrite app_nil_r.
Qed.

Lemma X11_witness :
  exists endpoints ds T,
    two_hosts = PyList endpoints
    /\ Monitor.main two_hosts_env 2 ["monitor.py"; "config.yaml"]
       = (Running ds,
          mkWorld (2 * length endpoints) 2
            ([EvLog INFO "Starting endpoint monitor.";
              EvLog INFO "Load config file.";
              EvLog INFO "Validating YAML schema."] ++ T))
    /\ Forall (fun ev => is_log ev = false) T.
Proof.
  apply (X11_valid_config_runs two_hosts_env 2%nat "monitor.py" "config.yaml"
           "" two_hosts eq_refl eq_refl).
  - vm_compute. reflexivity.
  - apply first_down_benign.
  - reflexivity.
Defined.

(** X12. From the first cycle on the table has one entry per domain key,
    in the order in which the keys first occur in the config; later
    cycles add none and move none, so every report lists the domains in
    that order. *)
Theorem X12_report_order env domain_of n config endpoints w ds w' :
  py_iter config = Ok endpoints ->
  loop env domain_of (S n) config [] w = (Ok ds, w') ->
  keys ds = first_seen [] (omap (endpoint_key domain_of) endpoints)
  /\ NoDup (keys ds).
Proof.
  intros Hit H. split; cycle 1.
  { apply loop_inv in H as (hist & ->). apply NoDup_keys_replay. constructor. }
  set (K := omap (endpoint_key domain_of) endpoints).
  assert (Hgen : forall m ds0 w0 ds1 w1,
             loop env domain_of (S m) config ds0 w0 = (Ok ds1, w1) ->
             keys ds1 = keys ds0 ++ first_seen (keys ds0) K).
  { clear H. induction m as [|m IH]; intros ds0 w0 ds1 w1 H.
    - cbn [loop] in H. inv_bind H. unfold ret in H. injection H as <- _.
      apply cycle_inv in H0 as (eps & wc & Hit' & Hs).
      rewrite Hit in Hit'. injection Hit' as <-.
      apply sweep_inv in Hs as (hist & -> & Hk).
      rewrite keys_replay. unfold K. by rewrite (keyed_keys _ _ _ Hk).
    - change (loop env domain_of (S (S m)) config ds0 w0)
        with (bind (cycle env domain_of config ds0)
                (fun ds' => loop env domain_of (S m) config ds') w0) in H.
      inv_bind H. apply IH in H.
      apply cycle_inv in H0 as (eps & wc & Hit' & Hs).
      rewrite Hit in Hit'. injection Hit' as <-.
      apply sweep_inv in Hs as (hist & -> & Hk).
      rewrite H, keys_replay. unfold K. rewrite (keyed_keys _ _ _ Hk).
      rewrite (first_seen_known (keys ds0 ++ first_seen (keys ds0) hist.*1)),
        app_nil_r; [done|].
      intros x Hx. apply elem_of_first_seen. by right. }
  apply Hgen in H. exact H.
Qed.

Lemma X12_witness :
  keys [("a.example.com", mkStats 1 2); ("b.example.com:8443", mkStats 2 2)]
  = first_seen [] (omap (endpoint_key Main.domain_key) [host_a; host_b])
  /\ NoDup (keys [("a.example.com", mkStats 1 2);
                  ("b.example.com:8443", mkStats 2 2)]).
Proof.
  refine (X12_report_order two_hosts_env Main.domain_key 1%nat two_hosts
            [host_a; host_b] world0
            [("a.example.com", mkStats 1 2); ("b.example.com:8443", mkStats 2 2)]
            (loop two_hosts_env Main.domain_key 2 two_hosts [] world0).2
            eq_refl _).
  vm_compute. reflexivity.
Defined.

(** X13. After [n] cycles the [total] of a domain is [n] times the number
    of endpoints of the config filed under it, and its [up] count lies
    between 0 and that total. *)
Theorem X13_totals_after_cycles env domain_of n config endpoints w ds w' d :
  py_iter config = Ok endpoints ->
  loop env domain_of n config [] w = (Ok ds, w') ->
  total (counts d ds) = Z.of_nat n * endpoints_of domain_of d endpoints
  /\ 0 <= up (counts d ds) <= total (counts d ds).
Proof.
  intros Hit H.
  apply (loop_counts _ _ _ _ _ d _ _ _ _ Hit) in H.
  change (counts d []) with stats0 in H.
  cbn [total up stats0] in H. lia.
Qed.

Lemma X13_witness :
  total (counts "example.com" [("example.com", mkStats 1 2)]) = 1 * 2
  /\ 0 <= up (counts "example.com" [("example.com", mkStats 1 2)])
     <= total (counts "example.com" [("example.com", mkStats 1 2)]).
Proof.
  refine (X13_totals_after_cycles two_hosts_env
            (Monitor.extract_domain two_hosts_env) 1%nat two_hosts
            [host_a; host_b] world0 [("example.com", mkStats 1 2)]
            monitor_cycle1.2 "example.com" eq_refl _).
  vm_compute. reflexivity.
Defined.

(** X14. The percentage printed is the integer nearest to
    [100 * up / total], ties to even: for totals below [2^40] the binary64
    division and [round] lose nothing against exact arithmetic. *)
Theorem X14_percentage_is_nearest_integer u t :
  0 <= u <= t -> 1 <= t < 2 ^ 40 ->
  exists a,
    availability (mkStats u t) = Ok a
    /\ a = round_ratio (100 * u) t
    /\ 2 * Z.abs (100 * u - a * t) <= t.
Proof.
  intros Hu Ht. exists (round_ratio (100 * u) t).
  split; [by apply availability_round_ratio|]. split; [done|].
  apply round_ratio_nearest. lia.
Qed.

Lemma X14_witness :
  exists a,
    availability (mkStats 2 3) = Ok a
    /\ a = round_ratio (100 * 2) 3
    /\ 2 * Z.abs (100 * 2 - a * 3) <= 3.
Proof.
  apply (X14_percentage_is_nearest_integer 2 3); [lia|].
  split; [lia|reflexivity].
Defined.

(** X15. A domain whose probes were all UP is reported at 100, one with
    none UP at 0, for every number of probes. *)
Theorem X15_all_up_all_down t :
  1 <= t ->
  availability (mkStats t t) = Ok 100 /\ availability (mkStats 0 t) = Ok 0.
Proof.
  intros Ht. split.
  - rewrite (availability_exact t t 200) by lia. reflexivity.
  - unfold availability, py_truediv. cbn [up total]. change (100 * 0) with 0.
    destruct (Z.eqb_spec t 0); [lia|]. reflexivity.
Qed.

Lemma X15_witness :
  availability (mkStats (2 ^ 70) (2 ^ 70)) = Ok 100
  /\ availability (mkStats 0 (2 ^ 70)) = Ok 0.
Proof.
  apply (X15_all_up_all_down (2 ^ 70)). vm_compute. discriminate.
Defined.

(** X16. When [100 * up / total] lies exactly half-way between two
    integers the even one is reported: 1 of 8, which is 12.5, gives 12. *)
Theorem X16_half_rounds_to_even u t k :
  0 < u <= t -> 200 * u = (2 * k + 1) * t ->
  availability (mkStats u t) = Ok (if Z.even k then k else k + 1).
Proof.
  intros Hu Hk. rewrite (availability_exact u t (2 * k + 1) Hu Hk).
  f_equal. unfold round_ratio.
  replace ((2 * k + 1) / 2) with k by (apply Z.div_unique with 1; lia).
  replace ((2 * k + 1) mod 2) with 1 by (apply Z.mod_unique with k; lia).
  reflexivity.
Qed.

Lemma X16_witness : availability (mkStats 1 8) = Ok 12.
Proof.
  apply (X16_half_rounds_to_even 1 8 12); lia.
Defined.

(** X17. The key of [main.py] never contains a slash, computing it again
    from a key changes nothing, and on a URL without ["//"] it is the
    text before the first slash. *)
Theorem X17_main_key_properties u :
  no_slash (Main.domain_of_url u) = true
  /\ Main.domain_of_url (Main.domain_of_url u) = Main.domain_of_url u
  /\ (has_dslash u = false ->
      forall h p, u = h +:+ "/" +:+ p -> no_slash h = true ->
                  Main.domain_of_url u = h).
Proof.
  assert (Hid : forall s, no_slash s = true -> Main.domain_of_url s = s).
  { intros s Hs. rewrite domain_of_url_take. unfold py_split.
    rewrite split_dslash_none by (by apply no_slash_no_dslash).
    cbn [List.last rev_string]. by apply take_until_id. }
  assert (Hns : no_slash (Main.domain_of_url u) = true).
  { rewrite domain_of_url_take. apply take_until_stops. }
  split; [done|]. split; [by apply Hid|].
  intros Hu h p -> Hh. rewrite domain_of_url_take. unfold py_split.
  rewrite split_dslash_none by done. cbn [List.last rev_string].
  by apply take_until_app.
Qed.

Lemma X17_witness : Main.domain_of_url "example.com/health" = "example.com".
Proof.
  refine (proj2 (proj2 (X17_main_key_properties "example.com/health"))
            eq_refl "example.com" "health" eq_refl eq_refl).
Defined.

(** X18. The key of [main.py] is what stands between the last ["//"] of
    the URL and the next slash: user info, subdomains and port are kept,
    and a URL whose query holds another URL is filed under the host of
    that inner URL. *)
Theorem X18_main_key_after_last_double_slash pre netloc path :
  (forall p, pre <> p +:+ "/") ->
  no_slash netloc = true ->
  path = "" \/ (exists r, path = String "/" r) ->
  has_dslash path = false ->
  Main.domain_of_url (pre +:+ "//" +:+ netloc +:+ path) = netloc.
Proof.
  intros Hpre Hn Hp Hd. rewrite domain_of_url_take. unfold py_split.
  rewrite split_dslash_last; [| done | by rewrite has_dslash_app | by left].
  apply take_until_host; [done|].
  destruct Hp as [->|[r ->]]; [by left|]. right. by exists "/"%char, r.
Qed.

Lemma X18_witness :
  Main.domain_of_url "https://user@api.example.com:8443/v1/health"
  = "user@api.example.com:8443"
  /\ Main.domain_of_url "https://a.example.com/go?to=http://b.example.org/x"
     = "b.example.org".
Proof.
  split.
  - apply (X18_main_key_after_last_double_slash "https:"
             "user@api.example.com:8443" "/v1/health").
    + apply (not_ending_in_slash "https" ":"). discriminate.
    + reflexivity.
    + right. eexists. reflexivity.
    + reflexivity.
  - apply (X18_main_key_after_last_double_slash
             "https://a.example.com/go?to=http:" "b.example.org" "/x").
    + apply (not_ending_in_slash "https://a.example.com/go?to=http" ":").
      discriminate.
    + reflexivity.
    + right. eexists. reflexivity.
    + reflexivity.
Defined.
